(** * Jarvis study tutor: the per-caller store and the review scheduler

    A shallow embedding of the Motoko actor (the backend canister holding
    profiles, chat sessions, notes, flashcard decks, quiz results, goals,
    progress statistics and study streaks, each keyed by the caller's
    principal) and of the scheduling arithmetic of [rateCard] in
    [QuizView.tsx].

    - Motoko [Int] is unbounded: [Z].  [Float] and the JavaScript numbers of
      the frontend are IEEE 754 binary64: Rocq's primitive [float].
    - [Text] and [Principal] are [string]s (a principal is an opaque blob).
    - [Map.Map<K, V>] of mo:core is an ordered, mutable map: a [gmap], with
      [values] enumerating in ascending key order.  Mutation in place of an
      inner map or of a [var] field is written as the update of the enclosing
      map, which is what the aliasing amounts to.
    - [Runtime.trap] aborts the message and rolls its effects back: an
      operation returns either [Ok] with the new store or [Trap]. *)

From Stdlib Require Import ZArith Floats.
From stdpp Require Import gmap strings list sorting pretty.

Set Warnings "-inexact-float".
Local Open Scope Z_scope.

(* ===================================================================== *)
(** * The review scheduler of the frontend ([QuizView.tsx]) *)
(* ===================================================================== *)

Module QuizView.

(** [type DifficultyRating = 'again' | 'hard' | 'good' | 'easy'] *)
Inductive DifficultyRating : Type := again | hard | good | easy.

(** [interface LocalCard] *)
Record LocalCard : Type := mkLocalCard {
  id : string;
  front : string;
  back : string;
  interval : float;
  easeFactor : float;
  nextReview : float;
}.

(** An integer of magnitude at most 2^53 as a JavaScript number (exact). *)
Definition number_of_Z (n : Z) : float :=
  if n <? 0 then PrimFloat.opp (PrimFloat.of_uint63 (Uint63.of_Z (- n)))
  else PrimFloat.of_uint63 (Uint63.of_Z n).

(** [Math.floor]: the greatest integral number not above [x]; NaN, the
    infinities and both zeros are returned as they are.  A finite [x] is
    [(-1)^s * m * 2^e]; with [e >= 0] it is integral already. *)
Definition Math_floor (x : float) : float :=
  match Prim2SF x with
  | S754_finite s m e =>
      if 0 <=? e then x
      else
        let q := Z.shiftr (Z.pos m) (- e) in
        if Z.shiftl q (- e) =? Z.pos m then x
        else if s then number_of_Z (- (q + 1))
        else number_of_Z q
  | _ => x
  end.

(** [Math.max] of two arguments: NaN if either is NaN, and [+0] is above
    [-0]. *)
Definition Math_max (a b : float) : float :=
  if PrimFloat.is_nan a || PrimFloat.is_nan b then PrimFloat.nan
  else if PrimFloat.ltb a b then b
  else if PrimFloat.ltb b a then a
  else if PrimFloat.is_zero a && PrimFloat.get_sign a then b
  else a.

(** The scheduling arithmetic of [rateCard]: the two mutable locals
    [newInterval] and [newEase] start at the card's values and the [switch]
    overwrites them.  The result is the pair handed to
    [backend.updateCardReview] and written to the local card. *)
Definition rateCard (rating : DifficultyRating) (card : LocalCard)
  : float * float :=
  let newInterval := interval card in
  let newEase := easeFactor card in
  match rating with
  | again =>
      let newInterval := 1%float in
      let newEase := Math_max 1.3 (newEase - 0.2) in
      (newInterval, newEase)
  | hard =>
      let newInterval := Math_max 1 (Math_floor (interval card * 1.2)) in
      let newEase := Math_max 1.3 (newEase - 0.15) in
      (newInterval, newEase)
  | good =>
      let newInterval := Math_floor (interval card * newEase) in
      (newInterval, newEase)
  | easy =>
      let newInterval := Math_floor (interval card * newEase * 1.3) in
      let newEase := (newEase + 0.15)%float in
      (newInterval, newEase)
  end.

(** The card as [setCards] leaves it, [Date.now()] being [now]. *)
Definition rateCard_local (rating : DifficultyRating) (now : float)
    (card : LocalCard) : LocalCard :=
  let '(newInterval, newEase) := rateCard rating card in
  {| id := id card; front := front card; back := back card;
     interval := newInterval; easeFactor := newEase;
     nextReview := (now + newInterval * 86400000)%float |}.

End QuizView.

(* ===================================================================== *)
(** * The backend actor *)
(* ===================================================================== *)

Module Message.
Record t : Type := mk { role : string; content : string; timestamp : Z }.
End Message.

Module ChatSession.
Record t : Type := mk {
  id : string;
  title : string;
  createdAt : Z;
  messages : list Message.t;   (* [var messages : List.List<Message>] *)
}.
End ChatSession.

Module ChatSessionDTO.
Record t : Type := mk {
  id : string;
  title : string;
  createdAt : Z;
  messages : list Message.t;
}.

Definition fromChatSession (chatSession : ChatSession.t) : t :=
  {| id := ChatSession.id chatSession;
     title := ChatSession.title chatSession;
     createdAt := ChatSession.createdAt chatSession;
     messages := ChatSession.messages chatSession |}.

Definition compareByCreatedAtDesc (a b : t) : comparison :=
  Z.compare (createdAt b) (createdAt a).
End ChatSessionDTO.

Module Note.
Record t : Type := mk {
  id : string;
  title : string;
  content : string;
  topic : string;
  createdAt : Z;
  updatedAt : Z;
}.
End Note.

Module Flashcard.
Record t : Type := mk {
  id : string;
  front : string;
  back : string;
  difficulty : Z;
  nextReview : Z;
  interval : Z;
  easeFactor : float;
}.
End Flashcard.

Module FlashcardDeck.
Record t : Type := mk {
  id : string;
  name : string;
  subject : string;
  cards : list Flashcard.t;    (* [var cards : List.List<Flashcard>] *)
}.
End FlashcardDeck.

Module FlashcardDeckDTO.
Record t : Type := mk {
  id : string;
  name : string;
  subject : string;
  cards : list Flashcard.t;
}.

Definition fromFlashcardDeck (deck : FlashcardDeck.t) : t :=
  {| id := FlashcardDeck.id deck;
     name := FlashcardDeck.name deck;
     subject := FlashcardDeck.subject deck;
     cards := FlashcardDeck.cards deck |}.
End FlashcardDeckDTO.

Module QuizResult.
Record t : Type := mk {
  id : string;
  subject : string;
  score : Z;
  totalQuestions : Z;
  timestamp : Z;
}.

Definition compareByTimestampDesc (a b : t) : comparison :=
  Z.compare (timestamp b) (timestamp a).
End QuizResult.

Module Goal.
Record t : Type := mk {
  id : string;
  title : string;
  description : string;
  targetDate : Z;
  isCompleted : bool;
  createdAt : Z;
}.
End Goal.

Module ProgressStat.
Record t : Type := mk {
  subject : string;
  masteryPercent : float;
  lastUpdated : Z;
}.
End ProgressStat.

Inductive PersonalityMode : Type := strict_teacher | friendly | pro_coder.

Module Profile.
Record t : Type := mk {
  displayName : string;
  personalityMode : PersonalityMode;
  preferredLanguage : string;
  createdAt : Z;
}.
End Profile.

Module StudyStreak.
Record t : Type := mk { currentStreak : Z; lastStudyDate : Z }.
End StudyStreak.

(** ** Library functions of mo:core used by the actor *)

(** [Int.toText]: decimal digits, with a leading minus sign below zero. *)
Definition toText (n : Z) : string := pretty n.

(** Order of the entries of a [Map.Map<Text, V>]: ascending keys. *)
Definition key_le {V : Type} (a b : string * V) : Prop :=
  String.leb a.1 b.1 = true.

#[global] Instance key_le_dec {V : Type} (a b : string * V) :
  Decision (key_le a b).
Proof. unfold key_le. apply _. Defined.

(** [m.values().toArray()] *)
Definition values {V : Type} (m : gmap string V) : list V :=
  (merge_sort key_le (map_to_list m)).*2.

(** [m.get(k1)] followed by [.get(k2)] on the inner map. *)
Definition lookup2 {V : Type} (m : gmap string (gmap string V))
    (k1 k2 : string) : option V :=
  m !! k1 ≫= λ inner, inner !! k2.

(** [array.sort(compare)]: ascending for [compare]. *)
Definition sorted_by {A : Type} (compare : A → A → comparison) (a b : A)
  : Prop := compare a b ≠ Gt.

#[global] Instance sorted_by_dec {A : Type} (compare : A → A → comparison)
  (a b : A) : Decision (sorted_by compare a b).
Proof. unfold sorted_by. apply _. Defined.

Definition sort {A : Type} (compare : A → A → comparison) (l : list A)
  : list A := merge_sort (sorted_by compare) l.

(** ** The actor's state: the eight top-level maps *)

Record Store : Type := mkStore {
  profiles : gmap string Profile.t;
  chatSessions : gmap string (gmap string ChatSession.t);
  notes : gmap string (gmap string Note.t);
  flashcardDecks : gmap string (gmap string FlashcardDeck.t);
  quizResults : gmap string (gmap string QuizResult.t);
  goals : gmap string (gmap string Goal.t);
  progressStats : gmap string (gmap string ProgressStat.t);
  studyStreaks : gmap string StudyStreak.t;
}.

(** The actor as deployed: every map empty. *)
Definition init : Store := mkStore ∅ ∅ ∅ ∅ ∅ ∅ ∅ ∅.

Definition set_profiles (m : gmap string Profile.t) (s : Store) : Store :=
  mkStore m (chatSessions s) (notes s) (flashcardDecks s) (quizResults s)
          (goals s) (progressStats s) (studyStreaks s).
Definition set_chatSessions (m : gmap string (gmap string ChatSession.t))
    (s : Store) : Store :=
  mkStore (profiles s) m (notes s) (flashcardDecks s) (quizResults s)
          (goals s) (progressStats s) (studyStreaks s).
Definition set_notes (m : gmap string (gmap string Note.t)) (s : Store)
  : Store :=
  mkStore (profiles s) (chatSessions s) m (flashcardDecks s) (quizResults s)
          (goals s) (progressStats s) (studyStreaks s).
Definition set_flashcardDecks (m : gmap string (gmap string FlashcardDeck.t))
    (s : Store) : Store :=
  mkStore (profiles s) (chatSessions s) (notes s) m (quizResults s)
          (goals s) (progressStats s) (studyStreaks s).
Definition set_quizResults (m : gmap string (gmap string QuizResult.t))
    (s : Store) : Store :=
  mkStore (profiles s) (chatSessions s) (notes s) (flashcardDecks s) m
          (goals s) (progressStats s) (studyStreaks s).
Definition set_goals (m : gmap string (gmap string Goal.t)) (s : Store)
  : Store :=
  mkStore (profiles s) (chatSessions s) (notes s) (flashcardDecks s)
          (quizResults s) m (progressStats s) (studyStreaks s).
Definition set_progressStats (m : gmap string (gmap string ProgressStat.t))
    (s : Store) : Store :=
  mkStore (profiles s) (chatSessions s) (notes s) (flashcardDecks s)
          (quizResults s) (goals s) m (studyStreaks s).
Definition set_studyStreaks (m : gmap string StudyStreak.t) (s : Store)
  : Store :=
  mkStore (profiles s) (chatSessions s) (notes s) (flashcardDecks s)
          (quizResults s) (goals s) (progressStats s) m.

(** The outcome of a message: a value (and, for an update, the new store),
    or a trap with its message, which leaves the store as it was. *)
Inductive reply (A : Type) : Type :=
| Ok (a : A)
| Trap (msg : string).
Arguments Ok {A} a.
Arguments Trap {A} msg.

(** ** The public functions

    [caller] is the principal of the message and [now] the value of
    [Time.now()], which is the same at every call within one message. *)

Section Actor.
Variable caller : string.

(** *** User profile management *)

Definition createProfile (now : Z) (displayName : string)
    (mode : PersonalityMode) (language : string) (s : Store)
  : reply (unit * Store) :=
  match profiles s !! caller with
  | Some _ => Trap "Profile already exists, use update function instead"
  | None =>
      let profile :=
        {| Profile.displayName := displayName;
           Profile.personalityMode := mode;
           Profile.preferredLanguage := language;
           Profile.createdAt := now |} in
      Ok (tt, set_profiles (<[caller := profile]> (profiles s)) s)
  end.

Definition updateProfile (displayName : string) (mode : PersonalityMode)
    (language : string) (s : Store) : reply (unit * Store) :=
  match profiles s !! caller with
  | Some existingProfile =>
      let updatedProfile :=
        {| Profile.displayName := displayName;
           Profile.personalityMode := mode;
           Profile.preferredLanguage := language;
           Profile.createdAt := Profile.createdAt existingProfile |} in
      Ok (tt, set_profiles (<[caller := updatedProfile]> (profiles s)) s)
  | None => Trap "Profile does not exist, use create function instead"
  end.

Definition getProfile (s : Store) : reply Profile.t :=
  match profiles s !! caller with
  | Some profile => Ok profile
  | None => Trap "Profile does not exist"
  end.

(** *** Chat history *)

Definition createChatSession (now : Z) (title : string) (s : Store)
  : reply (string * Store) :=
  let session :=
    {| ChatSession.id := toText now;
       ChatSession.title := title;
       ChatSession.createdAt := now;
       ChatSession.messages := [] |} in
  let userSessions :=
    match chatSessions s !! caller with
    | Some sessions => sessions
    | None => ∅
    end in
  let userSessions := <[ChatSession.id session := session]> userSessions in
  Ok (ChatSession.id session,
      set_chatSessions (<[caller := userSessions]> (chatSessions s)) s).

Definition addMessage (now : Z) (sessionId role content : string)
    (s : Store) : reply (unit * Store) :=
  match chatSessions s !! caller with
  | Some userSessions =>
      match userSessions !! sessionId with
      | Some session =>
          let message :=
            {| Message.role := role;
               Message.content := content;
               Message.timestamp := now |} in
          let session :=
            {| ChatSession.id := ChatSession.id session;
               ChatSession.title := ChatSession.title session;
               ChatSession.createdAt := ChatSession.createdAt session;
               ChatSession.messages :=
                 ChatSession.messages session ++ [message] |} in
          let userSessions := <[sessionId := session]> userSessions in
          Ok (tt, set_chatSessions
                    (<[caller := userSessions]> (chatSessions s)) s)
      | None => Trap "Chat session not found"
      end
  | None => Trap "No chat sessions found for user"
  end.

Definition getChatSessions (s : Store) : reply (list ChatSessionDTO.t) :=
  match chatSessions s !! caller with
  | Some userSessions =>
      Ok (ChatSessionDTO.fromChatSession <$> values userSessions)
  | None => Ok []
  end.

Definition getChatMessages (sessionId : string) (s : Store)
  : reply (list Message.t) :=
  match chatSessions s !! caller with
  | Some userSessions =>
      match userSessions !! sessionId with
      | Some session => Ok (ChatSession.messages session)
      | None => Trap "Chat session not found"
      end
  | None => Trap "No chat sessions found for user"
  end.

Definition deleteChatSession (sessionId : string) (s : Store)
  : reply (unit * Store) :=
  match chatSessions s !! caller with
  | Some userSessions =>
      (* [userSessions.remove] acts on the map held by [chatSessions] *)
      let userSessions := delete sessionId userSessions in
      Ok (tt, set_chatSessions
                (<[caller := userSessions]> (chatSessions s)) s)
  | None => Ok (tt, s)
  end.

(** *** Notes management *)

Definition createNote (now : Z) (title content topic : string) (s : Store)
  : reply (string * Store) :=
  let note :=
    {| Note.id := toText now;
       Note.title := title;
       Note.content := content;
       Note.topic := topic;
       Note.createdAt := now;
       Note.updatedAt := now |} in
  let userNotes :=
    match notes s !! caller with
    | Some n => n
    | None => ∅
    end in
  let userNotes := <[Note.id note := note]> userNotes in
  Ok (Note.id note, set_notes (<[caller := userNotes]> (notes s)) s).

Definition updateNote (now : Z) (noteId title content topic : string)
    (s : Store) : reply (unit * Store) :=
  match notes s !! caller with
  | Some userNotes =>
      match userNotes !! noteId with
      | Some existingNote =>
          let updatedNote :=
            {| Note.id := Note.id existingNote;
               Note.title := title;
               Note.content := content;
               Note.topic := topic;
               Note.createdAt := Note.createdAt existingNote;
               Note.updatedAt := now |} in
          let userNotes := <[noteId := updatedNote]> userNotes in
          Ok (tt, set_notes (<[caller := userNotes]> (notes s)) s)
      | None => Ok (tt, s)
      end
  | None => Ok (tt, s)
  end.

Definition deleteNote (noteId : string) (s : Store)
  : reply (unit * Store) :=
  match notes s !! caller with
  | Some userNotes =>
      let userNotes := delete noteId userNotes in
      Ok (tt, set_notes (<[caller := userNotes]> (notes s)) s)
  | None => Ok (tt, s)
  end.

Definition getNotes (s : Store) : reply (list Note.t) :=
  match notes s !! caller with
  | Some userNotes => Ok (values userNotes)
  | None => Ok []
  end.

Definition getNote (noteId : string) (s : Store) : reply Note.t :=
  match notes s !! caller with
  | Some userNotes =>
      match userNotes !! noteId with
      | Some note => Ok note
      | None => Trap "Note not found"
      end
  | None => Trap "No notes found for user"
  end.

(** *** Flashcards *)

Definition createDeck (now : Z) (name subject : string) (s : Store)
  : reply (string * Store) :=
  let deck :=
    {| FlashcardDeck.id := toText now;
       FlashcardDeck.name := name;
       FlashcardDeck.subject := subject;
       FlashcardDeck.cards := [] |} in
  let userDecks :=
    match flashcardDecks s !! caller with
    | Some d => d
    | None => ∅
    end in
  let userDecks := <[FlashcardDeck.id deck := deck]> userDecks in
  Ok (FlashcardDeck.id deck,
      set_flashcardDecks (<[caller := userDecks]> (flashcardDecks s)) s).

(** [deck.cards := cards], the other fields kept. *)
Definition with_cards (deck : FlashcardDeck.t) (cards : list Flashcard.t)
  : FlashcardDeck.t :=
  {| FlashcardDeck.id := FlashcardDeck.id deck;
     FlashcardDeck.name := FlashcardDeck.name deck;
     FlashcardDeck.subject := FlashcardDeck.subject deck;
     FlashcardDeck.cards := cards |}.

Definition addCard (now : Z) (deckId front back : string) (s : Store)
  : reply (string * Store) :=
  match flashcardDecks s !! caller with
  | Some userDecks =>
      match userDecks !! deckId with
      | Some deck =>
          let card :=
            {| Flashcard.id := toText now;
               Flashcard.front := front;
               Flashcard.back := back;
               Flashcard.difficulty := 1;
               Flashcard.nextReview := now;
               Flashcard.interval := 0;
               Flashcard.easeFactor := 2.5 |} in
          let deck := with_cards deck (FlashcardDeck.cards deck ++ [card]) in
          let userDecks := <[deckId := deck]> userDecks in
          Ok (Flashcard.id card,
              set_flashcardDecks
                (<[caller := userDecks]> (flashcardDecks s)) s)
      | None => Trap "Deck not found"
      end
  | None => Trap "No flashcard decks found for user"
  end.

(** The function mapped over the cards by [updateCardReview]. *)
Definition reviewed (now : Z) (cardId : string) (interval : Z)
    (easeFactor : float) (card : Flashcard.t) : Flashcard.t :=
  if decide (Flashcard.id card = cardId) then
    {| Flashcard.id := Flashcard.id card;
       Flashcard.front := Flashcard.front card;
       Flashcard.back := Flashcard.back card;
       Flashcard.nextReview := now + interval * 24 * 60 * 60 * 1000000000;
       Flashcard.difficulty := Flashcard.difficulty card;
       Flashcard.interval := interval;
       Flashcard.easeFactor := easeFactor |}
  else card.

Definition updateCardReview (now : Z) (deckId cardId : string)
    (interval : Z) (easeFactor : float) (s : Store)
  : reply (unit * Store) :=
  match flashcardDecks s !! caller with
  | Some userDecks =>
      match userDecks !! deckId with
      | Some deck =>
          let updatedCards :=
            reviewed now cardId interval easeFactor
              <$> FlashcardDeck.cards deck in
          let deck := with_cards deck updatedCards in
          let userDecks := <[deckId := deck]> userDecks in
          Ok (tt, set_flashcardDecks
                    (<[caller := userDecks]> (flashcardDecks s)) s)
      | None => Trap "Deck not found"
      end
  | None => Trap "No flashcard decks found for user"
  end.

Definition getDecks (s : Store) : reply (list FlashcardDeckDTO.t) :=
  match flashcardDecks s !! caller with
  | Some userDecks =>
      Ok (FlashcardDeckDTO.fromFlashcardDeck <$> values userDecks)
  | None => Ok []
  end.

Definition getDeckCards (deckId : string) (s : Store)
  : reply (list Flashcard.t) :=
  match flashcardDecks s !! caller with
  | Some userDecks =>
      match userDecks !! deckId with
      | Some deck => Ok (FlashcardDeck.cards deck)
      | None => Trap "Deck not found"
      end
  | None => Trap "No flashcard decks found for user"
  end.

(** *** Quiz results *)

Definition recordQuizResult (now : Z) (subject : string)
    (score totalQuestions : Z) (s : Store) : reply (string * Store) :=
  let result :=
    {| QuizResult.id := toText now;
       QuizResult.subject := subject;
       QuizResult.score := score;
       QuizResult.totalQuestions := totalQuestions;
       QuizResult.timestamp := now |} in
  let userResults :=
    match quizResults s !! caller with
    | Some r => r
    | None => ∅
    end in
  let userResults := <[QuizResult.id result := result]> userResults in
  Ok (QuizResult.id result,
      set_quizResults (<[caller := userResults]> (quizResults s)) s).

Definition getQuizResults (s : Store) : reply (list QuizResult.t) :=
  match quizResults s !! caller with
  | Some userResults =>
      Ok (sort QuizResult.compareByTimestampDesc (values userResults))
  | None => Ok []
  end.

(** *** Study streak

    [/] on [Int] truncates towards zero: [Z.quot]. *)

Definition recordStudyActivity (now : Z) (s : Store)
  : reply (unit * Store) :=
  let today := now in
  match studyStreaks s !! caller with
  | Some existing =>
      let lastActivityDay :=
        StudyStreak.lastStudyDate existing ÷ (24 * 60 * 60 * 1000000000) in
      let todayDay := today ÷ (24 * 60 * 60 * 1000000000) in
      let updatedStreak :=
        {| StudyStreak.currentStreak :=
             if decide (lastActivityDay = todayDay - 1)
             then StudyStreak.currentStreak existing + 1
             else 1;
           StudyStreak.lastStudyDate := today |} in
      Ok (tt, set_studyStreaks
                (<[caller := updatedStreak]> (studyStreaks s)) s)
  | None =>
      Ok (tt, set_studyStreaks
                (<[caller := {| StudyStreak.currentStreak := 1;
                                StudyStreak.lastStudyDate := today |}]>
                   (studyStreaks s)) s)
  end.

Definition getStudyStreak (s : Store) : reply StudyStreak.t :=
  match studyStreaks s !! caller with
  | Some streak => Ok streak
  | None => Ok {| StudyStreak.currentStreak := 0;
                  StudyStreak.lastStudyDate := 0 |}
  end.

(** *** Goals management *)

Definition createGoal (now : Z) (title description : string)
    (targetDate : Z) (s : Store) : reply (string * Store) :=
  let goal :=
    {| Goal.id := toText now;
       Goal.title := title;
       Goal.description := description;
       Goal.targetDate := targetDate;
       Goal.isCompleted := false;
       Goal.createdAt := now |} in
  let userGoals :=
    match goals s !! caller with
    | Some g => g
    | None => ∅
    end in
  let userGoals := <[Goal.id goal := goal]> userGoals in
  Ok (Goal.id goal, set_goals (<[caller := userGoals]> (goals s)) s).

Definition completeGoal (goalId : string) (s : Store)
  : reply (unit * Store) :=
  match goals s !! caller with
  | Some userGoals =>
      match userGoals !! goalId with
      | Some existingGoal =>
          let updatedGoal :=
            {| Goal.id := Goal.id existingGoal;
               Goal.title := Goal.title existingGoal;
               Goal.description := Goal.description existingGoal;
               Goal.targetDate := Goal.targetDate existingGoal;
               Goal.isCompleted := true;
               Goal.createdAt := Goal.createdAt existingGoal |} in
          let userGoals := <[goalId := updatedGoal]> userGoals in
          Ok (tt, set_goals (<[caller := userGoals]> (goals s)) s)
      | None => Trap "Goal not found"
      end
  | None => Trap "No goals found for user"
  end.

Definition getGoals (s : Store) : reply (list Goal.t) :=
  match goals s !! caller with
  | Some userGoals => Ok (values userGoals)
  | None => Ok []
  end.

(** *** Progress stats *)

Definition updateProgressStat (now : Z) (subject : string)
    (masteryPercent : float) (s : Store) : reply (unit * Store) :=
  let stat :=
    {| ProgressStat.subject := subject;
       ProgressStat.masteryPercent := masteryPercent;
       ProgressStat.lastUpdated := now |} in
  let userStats :=
    match progressStats s !! caller with
    | Some st => st
    | None => ∅
    end in
  let userStats := <[subject := stat]> userStats in
  Ok (tt, set_progressStats (<[caller := userStats]> (progressStats s)) s).

Definition getProgressStats (s : Store) : reply (list ProgressStat.t) :=
  match progressStats s !! caller with
  | Some userStats => Ok (values userStats)
  | None => Ok []
  end.

End Actor.

(** ** Messages, and the actor as a transition system *)

(** One constructor per public function, with its arguments. *)
Inductive Op : Type :=
| CreateProfile (displayName : string) (mode : PersonalityMode)
                (language : string)
| UpdateProfile (displayName : string) (mode : PersonalityMode)
                (language : string)
| GetProfile
| CreateChatSession (title : string)
| AddMessage (sessionId role content : string)
| GetChatSessions
| GetChatMessages (sessionId : string)
| DeleteChatSession (sessionId : string)
| CreateNote (title content topic : string)
| UpdateNote (noteId title content topic : string)
| DeleteNote (noteId : string)
| GetNotes
| GetNote (noteId : string)
| CreateDeck (name subject : string)
| AddCard (deckId front back : string)
| UpdateCardReview (deckId cardId : string) (interval : Z)
                   (easeFactor : float)
| GetDecks
| GetDeckCards (deckId : string)
| RecordQuizResult (subject : string) (score totalQuestions : Z)
| GetQuizResults
| RecordStudyActivity
| GetStudyStreak
| CreateGoal (title description : string) (targetDate : Z)
| CompleteGoal (goalId : string)
| GetGoals
| UpdateProgressStat (subject : string) (masteryPercent : float)
| GetProgressStats.

(** What a message can answer. *)
Inductive Value : Type :=
| VUnit
| VText (t : string)
| VProfile (p : Profile.t)
| VChatSessions (l : list ChatSessionDTO.t)
| VMessages (l : list Message.t)
| VNotes (l : list Note.t)
| VNote (n : Note.t)
| VDecks (l : list FlashcardDeckDTO.t)
| VCards (l : list Flashcard.t)
| VQuizResults (l : list QuizResult.t)
| VStreak (k : StudyStreak.t)
| VGoals (l : list Goal.t)
| VStats (l : list ProgressStat.t).

(** A [shared] function commits its store unless it traps. *)
Definition commit {A : Type} (inj : A → Value) (r : reply (A * Store))
    (s : Store) : reply Value * Store :=
  match r with
  | Ok (a, s') => (Ok (inj a), s')
  | Trap msg => (Trap msg, s)
  end.

(** A [query] function never changes the store. *)
Definition answer {A : Type} (inj : A → Value) (r : reply A) (s : Store)
  : reply Value * Store :=
  match r with
  | Ok a => (Ok (inj a), s)
  | Trap msg => (Trap msg, s)
  end.

Definition unit_value (_ : unit) : Value := VUnit.

Definition exec (caller : string) (now : Z) (op : Op) (s : Store)
  : reply Value * Store :=
  match op with
  | CreateProfile d m l =>
      commit unit_value (createProfile caller now d m l s) s
  | UpdateProfile d m l => commit unit_value (updateProfile caller d m l s) s
  | GetProfile => answer VProfile (getProfile caller s) s
  | CreateChatSession t => commit VText (createChatSession caller now t s) s
  | AddMessage i r c => commit unit_value (addMessage caller now i r c s) s
  | GetChatSessions => answer VChatSessions (getChatSessions caller s) s
  | GetChatMessages i => answer VMessages (getChatMessages caller i s) s
  | DeleteChatSession i => commit unit_value (deleteChatSession caller i s) s
  | CreateNote t c p => commit VText (createNote caller now t c p s) s
  | UpdateNote i t c p => commit unit_value (updateNote caller now i t c p s) s
  | DeleteNote i => commit unit_value (deleteNote caller i s) s
  | GetNotes => answer VNotes (getNotes caller s) s
  | GetNote i => answer VNote (getNote caller i s) s
  | CreateDeck n sb => commit VText (createDeck caller now n sb s) s
  | AddCard d f b => commit VText (addCard caller now d f b s) s
  | UpdateCardReview d c i e =>
      commit unit_value (updateCardReview caller now d c i e s) s
  | GetDecks => answer VDecks (getDecks caller s) s
  | GetDeckCards d => answer VCards (getDeckCards caller d s) s
  | RecordQuizResult sb sc t =>
      commit VText (recordQuizResult caller now sb sc t s) s
  | GetQuizResults => answer VQuizResults (getQuizResults caller s) s
  | RecordStudyActivity =>
      commit unit_value (recordStudyActivity caller now s) s
  | GetStudyStreak => answer VStreak (getStudyStreak caller s) s
  | CreateGoal t d td => commit VText (createGoal caller now t d td s) s
  | CompleteGoal g => commit unit_value (completeGoal caller g s) s
  | GetGoals => answer VGoals (getGoals caller s) s
  | UpdateProgressStat sb m =>
      commit unit_value (updateProgressStat caller now sb m s) s
  | GetProgressStats => answer VStats (getProgressStats caller s) s
  end.

(** The [query] functions. *)
Definition is_query (op : Op) : bool :=
  match op with
  | GetProfile | GetChatSessions | GetChatMessages _ | GetNotes | GetNote _
  | GetDecks | GetDeckCards _ | GetQuizResults | GetStudyStreak | GetGoals
  | GetProgressStats => true
  | _ => false
  end.

(** The functions that make an entity and answer its identifier. *)
Definition is_create (op : Op) : bool :=
  match op with
  | CreateChatSession _ | CreateNote _ _ _ | CreateDeck _ _ | AddCard _ _ _
  | RecordQuizResult _ _ _ | CreateGoal _ _ _ => true
  | _ => false
  end.

(** A message as the actor receives it: who sent it, the clock when it
    runs, and the call. *)
Record Event : Type := mkEvent {
  sender : string;
  clock : Z;
  call : Op;
}.

Definition step (e : Event) (s : Store) : reply Value * Store :=
  exec (sender e) (clock e) (call e) s.

(** The store after a sequence of messages. *)
Fixpoint run (tr : list Event) (s : Store) : Store :=
  match tr with
  | [] => s
  | e :: tr' => run tr' (step e s).2
  end.

(** What [p] is answered during a sequence of messages, in order. *)
Fixpoint observe (p : string) (tr : list Event) (s : Store)
  : list (reply Value) :=
  match tr with
  | [] => []
  | e :: tr' =>
      let r := step e s in
      if decide (sender e = p) then r.1 :: observe p tr' r.2
      else observe p tr' r.2
  end.

(** [e] is a creation sent by [p]. *)
Definition creation (p : string) (e : Event) : bool :=
  bool_decide (sender e = p) && is_create (call e).

(** The identifiers answered to the creations of [p] during a sequence of
    messages, in order. *)
Fixpoint created (p : string) (tr : list Event) (s : Store) : list string :=
  match tr with
  | [] => []
  | e :: tr' =>
      let r := step e s in
      match r.1 with
      | Ok (VText i) =>
          if creation p e then i :: created p tr' r.2 else created p tr' r.2
      | _ => created p tr' r.2
      end
  end.

(** What the tenant [p] holds under the identifier [k], collection by
    collection. *)
Definition entities (p k : string) (s : Store)
  : option ChatSession.t * option Note.t * option FlashcardDeck.t
    * option QuizResult.t * option Goal.t :=
  (lookup2 (chatSessions s) p k, lookup2 (notes s) p k,
   lookup2 (flashcardDecks s) p k, lookup2 (quizResults s) p k,
   lookup2 (goals s) p k).

(** The messages of a sequence that [p] did not send. *)
Definition purge (p : string) (tr : list Event) : list Event :=
  filter (λ e, sender e ≠ p) tr.

(** Everything the store holds for [p]. *)
Record Partition : Type := mkPartition {
  p_profile : option Profile.t;
  p_chatSessions : option (gmap string ChatSession.t);
  p_notes : option (gmap string Note.t);
  p_flashcardDecks : option (gmap string FlashcardDeck.t);
  p_quizResults : option (gmap string QuizResult.t);
  p_goals : option (gmap string Goal.t);
  p_progressStats : option (gmap string ProgressStat.t);
  p_studyStreak : option StudyStreak.t;
}.

Definition partition (p : string) (s : Store) : Partition :=
  {| p_profile := profiles s !! p;
     p_chatSessions := chatSessions s !! p;
     p_notes := notes s !! p;
     p_flashcardDecks := flashcardDecks s !! p;
     p_quizResults := quizResults s !! p;
     p_goals := goals s !! p;
     p_progressStats := progressStats s !! p;
     p_studyStreak := studyStreaks s !! p |}.

(** ** Predicates of the properties, and example runs *)

(** Unfolds the public functions to their bodies. *)
Ltac unfold_ops :=
  unfold createProfile, updateProfile, getProfile, createChatSession,
    addMessage, getChatSessions, getChatMessages, deleteChatSession,
    createNote, updateNote, deleteNote, getNotes, getNote, createDeck,
    addCard, updateCardReview, getDecks, getDeckCards, recordQuizResult,
    getQuizResults, recordStudyActivity, getStudyStreak, createGoal,
    completeGoal, getGoals, updateProgressStat, getProgressStats.

(** Two tenants at work: bob fills his partition before and between the
    messages of alice. *)
Definition isolation_trace : list Event :=
  [ mkEvent "bob" 10 (CreateNote "n" "secret" "t");
    mkEvent "alice" 11 (CreateNote "mine" "text" "t");
    mkEvent "bob" 12 (CreateGoal "g" "d" 99);
    mkEvent "alice" 13 GetNotes;
    mkEvent "alice" 14 GetGoals;
    mkEvent "bob" 15 (DeleteNote "10");
    mkEvent "alice" 16 (GetNote "10") ].

(** A tenant with streak 3, last active at noon of day 19000. *)
Definition streak_store : Store :=
  set_studyStreaks
    {[ "alice" := {| StudyStreak.currentStreak := 3;
                     StudyStreak.lastStudyDate :=
                       19000 * 86400000000000 + 43200000000000 |} ]} init.

(** Scenario A: a deck made at clock 100 with a card added at clock 200. *)
Definition scenario_deck : FlashcardDeck.t :=
  {| FlashcardDeck.id := "100";
     FlashcardDeck.name := "Bio";
     FlashcardDeck.subject := "Biology";
     FlashcardDeck.cards :=
       [ {| Flashcard.id := "200"; Flashcard.front := "Q";
            Flashcard.back := "A"; Flashcard.difficulty := 1;
            Flashcard.nextReview := 200; Flashcard.interval := 0;
            Flashcard.easeFactor := 2.5 |} ] |}.

(** The store holding that deck for alice, and nothing else. *)
Definition scenario_store : Store :=
  set_flashcardDecks {[ "alice" := {[ "100" := scenario_deck ]} ]} init.

(** A store where alice has one note and one chat session and bob has
    nothing. *)
Definition lenient_store : Store :=
  run [ mkEvent "alice" 100 (CreateNote "n" "c" "t");
        mkEvent "alice" 200 (CreateChatSession "s") ] init.

(** The bounds on a card: interval at least 0, ease factor at least 1.3. *)
Definition card_ok (card : Flashcard.t) : Prop :=
  0 ≤ Flashcard.interval card
  ∧ PrimFloat.leb 1.3 (Flashcard.easeFactor card) = true.

(** Every card of the deck is within the bounds. *)
Definition deck_ok (deck : FlashcardDeck.t) : Prop :=
  Forall card_ok (FlashcardDeck.cards deck).

(** Every card of every deck of every tenant is within the bounds. *)
Definition cards_ok (s : Store) : Prop :=
  map_Forall (λ _ userDecks, map_Forall (λ _ deck, deck_ok deck) userDecks)
             (flashcardDecks s).

(** The values handed to [updateCardReview] are within the bounds. *)
Definition within_bounds (op : Op) : Prop :=
  match op with
  | UpdateCardReview _ _ interval easeFactor =>
      0 ≤ interval ∧ PrimFloat.leb 1.3 easeFactor = true
  | _ => True
  end.

(** A review within the bounds, and one outside them. *)
Definition review_trace (interval : Z) (easeFactor : float) : list Event :=
  [ mkEvent "alice" 100 (CreateDeck "Bio" "Biology");
    mkEvent "alice" 200 (AddCard "100" "Q" "A");
    mkEvent "alice" 300 (UpdateCardReview "100" "200" interval easeFactor) ].

(** The goal as [completeGoal] rebuilds it. *)
Definition completed (g : Goal.t) : Goal.t :=
  {| Goal.id := Goal.id g;
     Goal.title := Goal.title g;
     Goal.description := Goal.description g;
     Goal.targetDate := Goal.targetDate g;
     Goal.isCompleted := true;
     Goal.createdAt := Goal.createdAt g |}.

(** The message [e] is a [createGoal] of [p] at a clock whose text is [k]:
    it stores a new goal under [k]. *)
Definition recreates (p k : string) (e : Event) : Prop :=
  sender e = p ∧ toText (clock e) = k
  ∧ ∃ title description targetDate,
      call e = CreateGoal title description targetDate.

(** A goal made at clock 5 and completed. *)
Definition goal_store : Store :=
  run [ mkEvent "alice" 5 (CreateGoal "read" "chapter 1" 99);
        mkEvent "alice" 5 (CompleteGoal "5") ] init.

(** Two sessions made one nanosecond apart. *)
Definition two_sessions : Store :=
  run [ mkEvent "alice" 1700000000000000000 (CreateChatSession "one");
        mkEvent "alice" 1700000000000000001 (CreateChatSession "two") ] init.

(** ** Further predicates and example runs *)

(** The clocks of a sequence of messages never go back, starting at [t]. *)
Fixpoint nondecreasing (t : Z) (tr : list Event) : Prop :=
  match tr with
  | [] => True
  | e :: tr' => t ≤ clock e ∧ nondecreasing (clock e) tr'
  end.

(** Every entry of a two-level map sits under the key read off its
    value. *)
Definition keyed {V : Type} (key : V → string)
    (m : gmap string (gmap string V)) : Prop :=
  ∀ p k v, lookup2 m p k = Some v → key v = k.

(** Every session, note, deck, quiz result and goal is stored under its
    own id, and every progress row under its subject. *)
Definition store_keyed (s : Store) : Prop :=
  keyed ChatSession.id (chatSessions s)
  ∧ keyed Note.id (notes s)
  ∧ keyed FlashcardDeck.id (flashcardDecks s)
  ∧ keyed QuizResult.id (quizResults s)
  ∧ keyed Goal.id (goals s)
  ∧ keyed ProgressStat.subject (progressStats s).

(** Every stored note was created no later than it was last updated, and
    that no later than [t]. *)
Definition notes_dated (t : Z) (s : Store) : Prop :=
  ∀ p k n, lookup2 (notes s) p k = Some n →
           Note.createdAt n ≤ Note.updatedAt n ∧ Note.updatedAt n ≤ t.

(** The message [e] removes the session [k] of [p] or stores a new one
    under [k]. *)
Definition resets (p k : string) (e : Event) : Prop :=
  sender e = p
  ∧ (call e = DeleteChatSession k
     ∨ (toText (clock e) = k ∧ ∃ title, call e = CreateChatSession title)).

(** The message [e] stores a new deck of [p] under [k]. *)
Definition redecks (p k : string) (e : Event) : Prop :=
  sender e = p ∧ toText (clock e) = k
  ∧ ∃ name subject, call e = CreateDeck name subject.

(** What a review never changes of a card. *)
Definition face (card : Flashcard.t) : string * string * string * Z :=
  (Flashcard.id card, Flashcard.front card, Flashcard.back card,
   Flashcard.difficulty card).

(** The eight maps of the actor. *)
Inductive Collection : Type :=
| Profiles | ChatSessions | Notes | FlashcardDecks | QuizResults | Goals
| ProgressStats | StudyStreaks.

(** The map a function writes to, if any. *)
Definition written (op : Op) : option Collection :=
  match op with
  | CreateProfile _ _ _ | UpdateProfile _ _ _ => Some Profiles
  | CreateChatSession _ | AddMessage _ _ _ | DeleteChatSession _ =>
      Some ChatSessions
  | CreateNote _ _ _ | UpdateNote _ _ _ _ | DeleteNote _ => Some Notes
  | CreateDeck _ _ | AddCard _ _ _ | UpdateCardReview _ _ _ _ =>
      Some FlashcardDecks
  | RecordQuizResult _ _ _ => Some QuizResults
  | RecordStudyActivity => Some StudyStreaks
  | CreateGoal _ _ _ | CompleteGoal _ => Some Goals
  | UpdateProgressStat _ _ => Some ProgressStats
  | _ => None
  end.

(** The stores [s] and [s'] agree on every map but [c]. *)
Definition same_but (c : option Collection) (s s' : Store) : Prop :=
  (c ≠ Some Profiles → profiles s' = profiles s)
  ∧ (c ≠ Some ChatSessions → chatSessions s' = chatSessions s)
  ∧ (c ≠ Some Notes → notes s' = notes s)
  ∧ (c ≠ Some FlashcardDecks → flashcardDecks s' = flashcardDecks s)
  ∧ (c ≠ Some QuizResults → quizResults s' = quizResults s)
  ∧ (c ≠ Some Goals → goals s' = goals s)
  ∧ (c ≠ Some ProgressStats → progressStats s' = progressStats s)
  ∧ (c ≠ Some StudyStreaks → studyStreaks s' = studyStreaks s).

(** [p] records a study activity with the message [e]. *)
Definition studies (p : string) (e : Event) : bool :=
  bool_decide (sender e = p)
  && match call e with RecordStudyActivity => true | _ => false end.

(** [p] records a study activity at each of the clock values [ts]. *)
Definition daily (p : string) (ts : list Z) : list Event :=
  (λ t, mkEvent p t RecordStudyActivity) <$> ts.

(** [p] adds the messages [msgs] (clock, role, content) to the session
    [k]. *)
Definition say (p k : string) (msgs : list (Z * string * string))
  : list Event :=
  (λ m, mkEvent p m.1.1 (AddMessage k m.1.2 m.2)) <$> msgs.

(** The messages as [addMessage] stores them. *)
Definition said (msgs : list (Z * string * string)) : list Message.t :=
  (λ m, {| Message.role := m.1.2; Message.content := m.2;
           Message.timestamp := m.1.1 |}) <$> msgs.

(** The order [getQuizResults] sorts by: later timestamps first. *)
Definition later_first (a b : QuizResult.t) : Prop :=
  QuizResult.timestamp b ≤ QuizResult.timestamp a.

(** A number that is neither NaN nor infinite. *)
Definition finite_number (x : float) : bool :=
  match Prim2SF x with
  | S754_zero _ | S754_finite _ _ _ => true
  | _ => false
  end.

(** A busy store: alice has a profile, two sessions, two notes, a deck with
    two cards, two quiz results, a goal and a progress row. *)
Definition busy_trace : list Event :=
  [ mkEvent "alice" 10 (CreateProfile "Alice" friendly "English");
    mkEvent "alice" 11 (CreateChatSession "algebra");
    mkEvent "alice" 12 (AddMessage "11" "user" "hello");
    mkEvent "alice" 13 (CreateChatSession "physics");
    mkEvent "alice" 14 (CreateNote "n1" "body" "math");
    mkEvent "alice" 15 (CreateNote "n2" "text" "bio");
    mkEvent "alice" 16 (CreateDeck "Bio" "Biology");
    mkEvent "alice" 17 (AddCard "16" "Q1" "A1");
    mkEvent "alice" 18 (AddCard "16" "Q2" "A2");
    mkEvent "alice" 19 (RecordQuizResult "math" 7 10);
    mkEvent "alice" 20 (RecordQuizResult "bio" 9 10);
    mkEvent "alice" 21 (CreateGoal "read" "chapter 1" 99);
    mkEvent "alice" 22 (UpdateProgressStat "math" 70) ].

Definition busy_store : Store := run busy_trace init.

(** [Number(n)] for a bigint [n]: the nearest number, ties to even. *)
Definition Number_of_BigInt (n : Z) : float :=
  SF2Prim (binary_normalize prec emax n 0 false).

(** [cardFromBackend] of [QuizView.tsx]. *)
Definition cardFromBackend (c : Flashcard.t) : QuizView.LocalCard :=
  {| QuizView.id := Flashcard.id c;
     QuizView.front := Flashcard.front c;
     QuizView.back := Flashcard.back c;
     QuizView.interval := Number_of_BigInt (Flashcard.interval c);
     QuizView.easeFactor := Flashcard.easeFactor c;
     QuizView.nextReview := Number_of_BigInt (Flashcard.nextReview c) |}.

(** The card after a sequence of ratings, each with the [Date.now()] of
    its call. *)
Definition rate_all (steps : list (QuizView.DifficultyRating * float))
    (card : QuizView.LocalCard) : QuizView.LocalCard :=
  foldl (λ c r, QuizView.rateCard_local r.1 r.2 c) card steps.

(** The first card of the busy store, as [addCard] stored it. *)
Definition fresh_card : Flashcard.t :=
  {| Flashcard.id := "17"; Flashcard.front := "Q1"; Flashcard.back := "A1";
     Flashcard.difficulty := 1; Flashcard.nextReview := 17;
     Flashcard.interval := 0; Flashcard.easeFactor := 2.5 |}.

(** The order of [Text] keys. *)
Definition text_le (a b : string) : Prop := String.leb a b = true.

(** The caller has nothing under [k] in the map [m]. *)
Definition absent {V : Type} (m : gmap string (gmap string V))
    (p k : string) : bool :=
  match lookup2 m p k with
  | Some _ => false
  | None => true
  end.

(** The stores in which a message traps: a second profile, a profile
    function without a profile, a session, note, deck or goal that the
    caller does not have. *)
Definition refused (a : string) (op : Op) (s : Store) : bool :=
  match op with
  | CreateProfile _ _ _ =>
      match profiles s !! a with Some _ => true | None => false end
  | UpdateProfile _ _ _ | GetProfile =>
      match profiles s !! a with Some _ => false | None => true end
  | AddMessage i _ _ | GetChatMessages i => absent (chatSessions s) a i
  | GetNote i => absent (notes s) a i
  | AddCard d _ _ | UpdateCardReview d _ _ _ | GetDeckCards d =>
      absent (flashcardDecks s) a d
  | CompleteGoal g => absent (goals s) a g
  | _ => false
  end.

(* ===================================================================== *)
(** * Properties *)
(* ===================================================================== *)

(** ** Each tenant's partition is its own *)

(** A message of [a] leaves the partition of every other principal as it
    was. *)
Lemma exec_frame (a b : string) (now : Z) (op : Op) (s : Store) :
  a ≠ b → partition b (exec a now op s).2 = partition b s.
Proof.
  intros Hab. destruct op; unfold exec, commit, answer; unfold_ops;
    repeat case_match; simplify_eq; try reflexivity;
    unfold partition; cbn; f_equal; by rewrite lookup_insert_ne.
Qed.

(** The answer to a message of [a], and what it leaves in the partition of
    [a], are determined by the partition of [a]. *)
Lemma exec_local (a : string) (now : Z) (op : Op) (s1 s2 : Store) :
  partition a s1 = partition a s2 →
  (exec a now op s1).1 = (exec a now op s2).1
  ∧ partition a (exec a now op s1).2 = partition a (exec a now op s2).2.
Proof.
  intros Hp. pose proof Hp as Hp'. unfold partition in Hp'.
  injection Hp' as H1 H2 H3 H4 H5 H6 H7 H8.
  destruct op; unfold exec, commit, answer; unfold_ops;
    rewrite ?H1, ?H2, ?H3, ?H4, ?H5, ?H6, ?H7, ?H8;
    repeat case_match; simplify_eq; cbn; (split; [reflexivity|]);
    try exact Hp;
    unfold partition; cbn; rewrite ?lookup_insert_eq; congruence.
Qed.

Lemma step_frame (e : Event) (b : string) (s : Store) :
  sender e ≠ b → partition b (step e s).2 = partition b s.
Proof. apply exec_frame. Qed.

(** A query leaves the store as it was, whatever it answers. *)
Lemma query_store (a : string) (now : Z) (op : Op) (s : Store) :
  is_query op = true → (exec a now op s).2 = s.
Proof.
  destruct op; try discriminate; intros _;
    unfold exec, answer; by case_match.
Qed.

(** Messages that [b] did not send leave the partition of [b] as it was. *)
Lemma run_frame (b : string) (tr : list Event) (s : Store) :
  Forall (λ e, sender e ≠ b) tr → partition b (run tr s) = partition b s.
Proof.
  intros Htr. revert s.
  induction Htr as [|e tr He _ IH]; intros s; [reflexivity|].
  cbn [run]. rewrite IH. by apply step_frame.
Qed.

(** What [a] is answered depends on the partition of [a] and on the
    messages of [a] alone: those of [b] can be taken out. *)
Lemma observe_purge (a b : string) (tr : list Event) :
  a ≠ b →
  ∀ s1 s2, partition a s1 = partition a s2 →
           observe a tr s1 = observe a (purge b tr) s2.
Proof.
  intros Hab. unfold purge.
  induction tr as [|e tr IH]; intros s1 s2 Hp; [reflexivity|].
  destruct (decide (sender e = b)) as [Hb|Hb].
  - rewrite filter_cons_False by (intros Hn; by apply Hn).
    cbn [observe]. rewrite decide_False by congruence.
    apply IH. rewrite step_frame by congruence. exact Hp.
  - rewrite filter_cons_True by exact Hb.
    cbn [observe]. destruct (decide (sender e = a)) as [Ha|Ha].
    + destruct (exec_local a (clock e) (call e) s1 s2 Hp) as [Hr Hp'].
      unfold step. rewrite Ha. f_equal; [exact Hr|]. by apply IH.
    + apply IH. rewrite !step_frame by exact Ha. exact Hp.
Qed.

(** C2 (tenant isolation).  For distinct principals [a] and [b]: a message
    of [a] leaves the partition of [b] unchanged; so does any sequence of
    messages none of which [b] sent; and the answers [a] receives during a
    sequence of messages are the same whether or not the store holds data
    of [b] and whether or not the messages of [b] take place. *)
Theorem tenant_isolation (a b : string) :
  a ≠ b →
  (∀ now op s, partition b (exec a now op s).2 = partition b s)
  ∧ (∀ tr s, Forall (λ e, sender e ≠ b) tr →
             partition b (run tr s) = partition b s)
  ∧ (∀ tr s1 s2, partition a s1 = partition a s2 →
                 observe a tr s1 = observe a (purge b tr) s2).
Proof.
  intros Hab. split; [|split].
  - intros now op s. by apply exec_frame.
  - intros tr s. apply run_frame.
  - intros tr s1 s2. by apply observe_purge.
Qed.

Lemma tenant_isolation_witness :
  "alice" ≠ "bob"
  ∧ observe "alice" isolation_trace (run (purge "alice" isolation_trace) init)
    = observe "alice" (purge "bob" isolation_trace) init.
Proof.
  assert (Hne : "alice" ≠ "bob") by discriminate.
  split; [exact Hne|].
  apply (proj2 (proj2 (tenant_isolation "alice" "bob" Hne))).
  reflexivity.
Defined.

(** ** Reads of a tenant that has written nothing *)

Lemma partition_init (p : string) :
  partition p init = mkPartition None None None None None None None None.
Proof. reflexivity. Qed.

Lemma values_empty {V : Type} : values (∅ : gmap string V) = [].
Proof. unfold values. by rewrite map_to_list_empty. Qed.

(** As long as [p] only queries, the partition of [p] stays as it was. *)
Lemma run_queries (p : string) (tr : list Event) (s : Store) :
  Forall (λ e, sender e = p → is_query (call e) = true) tr →
  partition p (run tr s) = partition p s.
Proof.
  intros Htr. revert s.
  induction Htr as [|e tr He _ IH]; intros s; [reflexivity|].
  cbn [run]. rewrite IH.
  destruct (decide (sender e = p)) as [Hp|Hp].
  - unfold step. by rewrite query_store by auto.
  - by apply step_frame.
Qed.

(** C9 (reads of a fresh tenant).  After any sequence of messages, starting
    from the empty store, in which [p] has sent nothing but queries,
    [getStudyStreak] answers the zero streak and each of the list accessors
    answers the empty array; none traps. *)
Theorem fresh_tenant_reads (p : string) (tr : list Event) :
  Forall (λ e, sender e = p → is_query (call e) = true) tr →
  getStudyStreak p (run tr init)
  = Ok {| StudyStreak.currentStreak := 0; StudyStreak.lastStudyDate := 0 |}
  ∧ getChatSessions p (run tr init) = Ok []
  ∧ getNotes p (run tr init) = Ok []
  ∧ getDecks p (run tr init) = Ok []
  ∧ getQuizResults p (run tr init) = Ok []
  ∧ getGoals p (run tr init) = Ok []
  ∧ getProgressStats p (run tr init) = Ok [].
Proof.
  intros Htr. pose proof (run_queries p tr init Htr) as Hp.
  rewrite partition_init in Hp. unfold partition in Hp.
  injection Hp as H1 H2 H3 H4 H5 H6 H7 H8.
  unfold getStudyStreak, getChatSessions, getNotes, getDecks,
    getQuizResults, getGoals, getProgressStats.
  rewrite H2, H3, H4, H5, H6, H7, H8. repeat split; reflexivity.
Qed.

Lemma fresh_tenant_reads_witness :
  getStudyStreak "alice"
    (run [ mkEvent "bob" 10 (CreateNote "n" "secret" "t");
           mkEvent "alice" 11 GetNotes;
           mkEvent "bob" 12 RecordStudyActivity;
           mkEvent "alice" 13 (GetNote "10") ] init)
  = Ok {| StudyStreak.currentStreak := 0; StudyStreak.lastStudyDate := 0 |}.
Proof.
  refine (proj1 (fresh_tenant_reads "alice" _ _)).
  repeat constructor; discriminate.
Defined.

(** ** The review scheduler *)

(** [Math.floor] on a few numbers, among them the two of the scenarios. *)
Example Math_floor_examples :
  QuizView.Math_floor <$> [4; 5.2; 0.5; -0.5; -2.5; -3; 2.4; infinity]%float
  = [4; 5; 0; -1; -3; -3; 2; infinity]%float.
Proof. reflexivity. Qed.

Example Math_max_examples :
  QuizView.Math_max 1.3 1.1 = 1.3%float
  ∧ QuizView.Math_max 1.3 2.3 = 2.3%float
  ∧ QuizView.Math_max 1 0 = 1%float
  ∧ QuizView.Math_max 1.3 nan = nan.
Proof. repeat split; reflexivity. Qed.

(** C1 (review scheduler).  For a card with interval [i] and ease factor
    [e], [rateCard] computes: again, interval 1 and ease max(1.3, e - 0.2);
    hard, interval max(1, floor(i * 1.2)) and ease max(1.3, e - 0.15); good,
    interval floor(i * e) and ease e; easy, interval floor(i * e * 1.3) and
    ease e + 0.15.  With i = 2 and e = 2.0, good gives (4, 2.0) and easy
    gives (5, 2.15). *)
Theorem review_scheduler_table (card : QuizView.LocalCard) :
  let i := QuizView.interval card in
  let e := QuizView.easeFactor card in
  QuizView.rateCard QuizView.again card
  = (1, QuizView.Math_max 1.3 (e - 0.2))%float
  ∧ QuizView.rateCard QuizView.hard card
    = (QuizView.Math_max 1 (QuizView.Math_floor (i * 1.2)),
       QuizView.Math_max 1.3 (e - 0.15))%float
  ∧ QuizView.rateCard QuizView.good card
    = (QuizView.Math_floor (i * e), e)%float
  ∧ QuizView.rateCard QuizView.easy card
    = (QuizView.Math_floor (i * e * 1.3), e + 0.15)%float
  ∧ (i = 2%float → e = 2.0%float →
     QuizView.rateCard QuizView.good card = (4, 2.0)%float
     ∧ QuizView.rateCard QuizView.easy card = (5, 2.15)%float).
Proof.
  destruct card as [c_id c_front c_back i e c_next]. cbn.
  repeat split; intros; subst; reflexivity.
Qed.

Lemma review_scheduler_table_witness :
  QuizView.rateCard QuizView.good
    (QuizView.mkLocalCard "c1" "Q" "A" 2 2.0 0) = (4, 2.0)%float
  ∧ QuizView.rateCard QuizView.easy
      (QuizView.mkLocalCard "c1" "Q" "A" 2 2.0 0) = (5, 2.15)%float.
Proof.
  refine (proj2 (proj2 (proj2 (proj2
    (review_scheduler_table (QuizView.mkLocalCard "c1" "Q" "A" 2 2.0 0)))))
    _ _); reflexivity.
Defined.

(** ** The study streak *)

(** C3 (study streak).  [recordStudyActivity] always succeeds and stores a
    record whose [lastStudyDate] is [now].  Its streak is 1 when the caller
    had no record; with a record, [lastDay] and [today] being the
    truncating quotients of the stored date and of [now] by the nanoseconds
    of a day, it is the previous streak plus one when [lastDay = today - 1]
    and 1 otherwise, on the same day in particular. *)
Theorem recordStudyActivity_streak (caller : string) (now : Z) (s : Store) :
  ∃ k,
    recordStudyActivity caller now s
    = Ok (tt, set_studyStreaks (<[caller := k]> (studyStreaks s)) s)
    ∧ StudyStreak.lastStudyDate k = now
    ∧ (studyStreaks s !! caller = None → StudyStreak.currentStreak k = 1)
    ∧ (∀ prev, studyStreaks s !! caller = Some prev →
         let lastDay := StudyStreak.lastStudyDate prev ÷ 86400000000000 in
         let today := now ÷ 86400000000000 in
         (lastDay = today - 1 →
          StudyStreak.currentStreak k = StudyStreak.currentStreak prev + 1)
         ∧ (lastDay ≠ today - 1 → StudyStreak.currentStreak k = 1)
         ∧ (lastDay = today → StudyStreak.currentStreak k = 1)
         ∧ (StudyStreak.currentStreak prev = 3 → today = lastDay + 1 →
            StudyStreak.currentStreak k = 4)).
Proof.
  unfold recordStudyActivity.
  change (24 * 60 * 60 * 1000000000) with 86400000000000.
  destruct (studyStreaks s !! caller) as [prev|] eqn:Hprev.
  - eexists. split; [reflexivity|]. cbn. split; [reflexivity|].
    split; [discriminate|]. intros prev' [= <-]. cbn.
    repeat split; intros; case_decide; lia.
  - eexists. split; [reflexivity|]. cbn. split; [reflexivity|].
    split; [reflexivity|]. discriminate.
Qed.

(** The next day the streak is 4. *)
Lemma recordStudyActivity_streak_witness :
  ∃ k,
    recordStudyActivity "alice" (19001 * 86400000000000 + 5) streak_store
    = Ok (tt, set_studyStreaks
                (<["alice" := k]> (studyStreaks streak_store)) streak_store)
    ∧ StudyStreak.currentStreak k = 4.
Proof.
  destruct (recordStudyActivity_streak "alice"
              (19001 * 86400000000000 + 5) streak_store)
    as (k & Hk & _ & _ & Hprev).
  exists k. split; [exact Hk|].
  refine (proj2 (proj2 (proj2 (Hprev _ eq_refl))) _ _); reflexivity.
Defined.

(** Later on the same day the streak is back at 1. *)
Example streak_same_day :
  (step (mkEvent "alice" (19000 * 86400000000000 + 50000000000000)
           RecordStudyActivity) streak_store).2
  = set_studyStreaks
      {[ "alice" := {| StudyStreak.currentStreak := 1;
                       StudyStreak.lastStudyDate :=
                         19000 * 86400000000000 + 50000000000000 |} ]} init.
Proof. reflexivity. Qed.

(** ** Reviewing a card *)

Lemma set_flashcardDecks_id (s : Store) (caller deckId : string)
    (userDecks : gmap string FlashcardDeck.t) (deck : FlashcardDeck.t) :
  flashcardDecks s !! caller = Some userDecks →
  userDecks !! deckId = Some deck →
  set_flashcardDecks
    (<[caller := <[deckId := deck]> userDecks]> (flashcardDecks s)) s = s.
Proof.
  intros Hu Hd. rewrite (insert_id userDecks) by exact Hd.
  rewrite insert_id by exact Hu. by destruct s.
Qed.

Lemma with_cards_id (deck : FlashcardDeck.t) :
  with_cards deck (FlashcardDeck.cards deck) = deck.
Proof. by destruct deck. Qed.

Lemma reviewed_no_match (now : Z) (cardId : string) (interval : Z)
    (easeFactor : float) (cards : list Flashcard.t) :
  Forall (λ card, Flashcard.id card ≠ cardId) cards →
  reviewed now cardId interval easeFactor <$> cards = cards.
Proof.
  induction 1 as [|card cards Hc _ IH]; [reflexivity|].
  cbn. rewrite IH. unfold reviewed. by rewrite decide_False.
Qed.

(** C5 (updateCardReview).  When the caller has the deck, the call succeeds
    and changes nothing but that deck's cards: a card whose id is [cardId]
    keeps its id, front, back and difficulty and gets the supplied interval
    and ease factor and [nextReview = now + interval * 86400000000000];
    every other card is as before, at the same position; with no such card
    the store is as before.  Without the deck the call traps. *)
Theorem updateCardReview_frame (caller : string) (now : Z)
    (deckId cardId : string) (interval : Z) (easeFactor : float) (s : Store) :
  (∀ userDecks deck,
     flashcardDecks s !! caller = Some userDecks →
     userDecks !! deckId = Some deck →
     ∃ cards',
       updateCardReview caller now deckId cardId interval easeFactor s
       = Ok (tt, set_flashcardDecks
                   (<[caller := <[deckId := with_cards deck cards']> userDecks]>
                      (flashcardDecks s)) s)
       ∧ length cards' = length (FlashcardDeck.cards deck)
       ∧ (∀ (n : nat) card, FlashcardDeck.cards deck !! n = Some card →
            cards' !! n
            = Some (if decide (Flashcard.id card = cardId)
                    then {| Flashcard.id := Flashcard.id card;
                            Flashcard.front := Flashcard.front card;
                            Flashcard.back := Flashcard.back card;
                            Flashcard.difficulty := Flashcard.difficulty card;
                            Flashcard.nextReview :=
                              now + interval * 86400000000000;
                            Flashcard.interval := interval;
                            Flashcard.easeFactor := easeFactor |}
                    else card))
       ∧ (Forall (λ card, Flashcard.id card ≠ cardId)
                 (FlashcardDeck.cards deck) →
          updateCardReview caller now deckId cardId interval easeFactor s
          = Ok (tt, s)))
  ∧ (flashcardDecks s !! caller = None →
     updateCardReview caller now deckId cardId interval easeFactor s
     = Trap "No flashcard decks found for user")
  ∧ (∀ userDecks,
       flashcardDecks s !! caller = Some userDecks →
       userDecks !! deckId = None →
       updateCardReview caller now deckId cardId interval easeFactor s
       = Trap "Deck not found").
Proof.
  unfold updateCardReview. split; [|split].
  - intros userDecks deck Hu Hd. rewrite Hu, Hd.
    exists (reviewed now cardId interval easeFactor
              <$> FlashcardDeck.cards deck).
    split; [reflexivity|]. split; [apply length_fmap|]. split.
    + intros n card Hn. rewrite list_lookup_fmap, Hn. cbn. f_equal.
      unfold reviewed. case_decide; [|reflexivity]. f_equal. lia.
    + intros Hno. rewrite reviewed_no_match by exact Hno.
      rewrite with_cards_id. do 2 f_equal.
      by apply set_flashcardDecks_id.
  - by intros ->.
  - by intros userDecks -> ->.
Qed.

Example scenario_store_run :
  run [ mkEvent "alice" 100 (CreateDeck "Bio" "Biology");
        mkEvent "alice" 200 (AddCard "100" "Q" "A") ] init
  = scenario_store.
Proof. reflexivity. Qed.

Lemma updateCardReview_frame_witness :
  ∃ cards',
    updateCardReview "alice" 300 "100" "200" 1 2.5 scenario_store
    = Ok (tt, set_flashcardDecks
                (<["alice" := <["100" := with_cards scenario_deck cards']>
                                {[ "100" := scenario_deck ]}]>
                   (flashcardDecks scenario_store)) scenario_store)
    ∧ cards' !! 0%nat
      = Some {| Flashcard.id := "200"; Flashcard.front := "Q";
                Flashcard.back := "A"; Flashcard.difficulty := 1;
                Flashcard.nextReview := 300 + 86400000000000;
                Flashcard.interval := 1; Flashcard.easeFactor := 2.5 |}.
Proof.
  destruct (proj1 (updateCardReview_frame "alice" 300 "100" "200" 1 2.5
                     scenario_store) _ scenario_deck eq_refl eq_refl)
    as (cards' & Hrun & _ & Hcards & _).
  exists cards'. split; [exact Hrun|].
  exact (Hcards 0%nat _ eq_refl).
Defined.

(** ** Lenient notes, strict chat sessions *)

Lemma set_notes_id (s : Store) (caller : string)
    (userNotes : gmap string Note.t) :
  notes s !! caller = Some userNotes →
  set_notes (<[caller := userNotes]> (notes s)) s = s.
Proof. intros Hu. rewrite insert_id by exact Hu. by destruct s. Qed.

(** C7 (error strictness).  [updateNote] and [deleteNote] on a note the
    caller does not have, or by a caller without any notes, succeed and
    leave the store as it was; [addMessage] on a session the caller does
    not have, or by a caller without any sessions, traps (and a trapped
    message leaves the store as it was). *)
Theorem notes_lenient_chat_strict (caller : string) (now : Z)
    (noteId title content topic sessionId role text : string) (s : Store) :
  (lookup2 (notes s) caller noteId = None →
   updateNote caller now noteId title content topic s = Ok (tt, s)
   ∧ deleteNote caller noteId s = Ok (tt, s))
  ∧ (chatSessions s !! caller = None →
     addMessage caller now sessionId role text s
     = Trap "No chat sessions found for user")
  ∧ (∀ userSessions,
       chatSessions s !! caller = Some userSessions →
       userSessions !! sessionId = None →
       addMessage caller now sessionId role text s
       = Trap "Chat session not found")
  ∧ (lookup2 (chatSessions s) caller sessionId = None →
     ∃ msg, exec caller now (AddMessage sessionId role text) s
            = (Trap msg, s)).
Proof.
  unfold lookup2, updateNote, deleteNote, addMessage, exec, commit.
  split; [|split; [|split]].
  - destruct (notes s !! caller) as [userNotes|] eqn:Hu; cbn; [|done].
    intros Hn. rewrite Hn. split; [reflexivity|].
    rewrite delete_id by exact Hn. by rewrite set_notes_id.
  - by intros ->.
  - by intros userSessions -> ->.
  - unfold addMessage.
    destruct (chatSessions s !! caller) as [userSessions|]; cbn;
      [intros ->|]; eauto.
Qed.

Lemma notes_lenient_chat_strict_witness :
  (updateNote "alice" 300 "999" "x" "y" "z" lenient_store
   = Ok (tt, lenient_store)
   ∧ deleteNote "alice" "999" lenient_store = Ok (tt, lenient_store))
  ∧ addMessage "bob" 300 "200" "user" "hi" lenient_store
    = Trap "No chat sessions found for user".
Proof.
  split.
  - refine (proj1 (notes_lenient_chat_strict "alice" 300 "999" "x" "y" "z"
                     "200" "user" "hi" lenient_store) _).
    reflexivity.
  - refine (proj1 (proj2 (notes_lenient_chat_strict "bob" 300 "999" "x" "y"
                            "z" "200" "user" "hi" lenient_store)) _).
    reflexivity.
Defined.

(** ** Bounds on stored flashcards *)

Lemma cards_ok_insert (s : Store) (a d : string)
    (userDecks : gmap string FlashcardDeck.t) (deck : FlashcardDeck.t) :
  cards_ok s →
  flashcardDecks s !! a = Some userDecks ∨ userDecks = ∅ →
  deck_ok deck →
  cards_ok (set_flashcardDecks
              (<[a := <[d := deck]> userDecks]> (flashcardDecks s)) s).
Proof.
  intros Hs Hu Hd. unfold cards_ok. cbn.
  apply map_Forall_insert_2; [|exact Hs].
  apply map_Forall_insert_2; [exact Hd|].
  destruct Hu as [Hu| ->]; [|apply map_Forall_empty].
  exact (Hs a userDecks Hu).
Qed.

Lemma cards_ok_lookup (s : Store) (a d : string)
    (userDecks : gmap string FlashcardDeck.t) (deck : FlashcardDeck.t) :
  cards_ok s → flashcardDecks s !! a = Some userDecks →
  userDecks !! d = Some deck → deck_ok deck.
Proof. intros Hs Hu Hd. exact (Hs a userDecks Hu d deck Hd). Qed.

Lemma reviewed_ok (now : Z) (cardId : string) (interval : Z)
    (easeFactor : float) (card : Flashcard.t) :
  0 ≤ interval → PrimFloat.leb 1.3 easeFactor = true → card_ok card →
  card_ok (reviewed now cardId interval easeFactor card).
Proof.
  intros Hi He Hc. unfold reviewed. case_decide; [|exact Hc]. by split.
Qed.

(** One message keeps the bounds, if it hands in values within them. *)
Lemma exec_cards_ok (a : string) (now : Z) (op : Op) (s : Store) :
  within_bounds op → cards_ok s → cards_ok (exec a now op s).2.
Proof.
  intros Hop Hs.
  destruct op; unfold exec, commit, answer; unfold_ops;
    repeat case_match; simplify_eq; try exact Hs.
  - (* createDeck *)
    apply cards_ok_insert; [exact Hs|by left|constructor].
  - apply cards_ok_insert; [exact Hs|by right|constructor].
  - (* addCard *)
    apply cards_ok_insert; [exact Hs|by left|].
    unfold deck_ok. cbn. apply Forall_app. split.
    + by eapply cards_ok_lookup.
    + constructor; [|constructor]. split; [cbn; lia|reflexivity].
  - (* updateCardReview *)
    destruct Hop as [Hi He].
    apply cards_ok_insert; [exact Hs|by left|].
    unfold deck_ok. cbn. apply Forall_fmap.
    eapply Forall_impl; [by eapply cards_ok_lookup|].
    intros card Hc. by apply reviewed_ok.
Qed.

(** C4 (card bounds), as the code has it.  [updateCardReview] stores the
    interval and ease factor it is handed without checking them; in every
    store reached from the empty one by messages whose [updateCardReview]
    calls hand in an interval of at least 0 and an ease factor of at least
    1.3, every stored card has interval at least 0 and ease factor at least
    1.3. *)
Theorem cards_within_bounds (tr : list Event) :
  Forall (λ e, within_bounds (call e)) tr → cards_ok (run tr init).
Proof.
  assert (Hinit : cards_ok init) by apply map_Forall_empty.
  revert Hinit. generalize init as s. intros s Hs Htr. revert s Hs.
  induction Htr as [|e tr He _ IH]; intros s Hs; [exact Hs|].
  cbn [run]. apply IH. by apply exec_cards_ok.
Qed.

Lemma cards_within_bounds_witness : cards_ok (run (review_trace 1 2.5) init).
Proof.
  apply cards_within_bounds. unfold review_trace.
  repeat constructor. cbn. lia.
Defined.

(** C4 fails as stated: the store keeps an interval of -1 and an ease factor
    of 0.5 when [updateCardReview] is handed them. *)
Lemma cards_out_of_bounds :
  getDeckCards "alice" "100" (run (review_trace (-1) 0.5) init)
  = Ok [ {| Flashcard.id := "200"; Flashcard.front := "Q";
            Flashcard.back := "A"; Flashcard.difficulty := 1;
            Flashcard.nextReview := 300 + (-1) * 86400000000000;
            Flashcard.interval := -1; Flashcard.easeFactor := 0.5 |} ]
  ∧ ¬ cards_ok (run (review_trace (-1) 0.5) init).
Proof.
  split; [reflexivity|].
  intros Hs.
  assert (Hd : deck_ok
            (with_cards scenario_deck
               [reviewed 300 "200" (-1) 0.5
                  {| Flashcard.id := "200"; Flashcard.front := "Q";
                     Flashcard.back := "A"; Flashcard.difficulty := 1;
                     Flashcard.nextReview := 200; Flashcard.interval := 0;
                     Flashcard.easeFactor := 2.5 |}])).
  { eapply (cards_ok_lookup _ "alice" "100"); [exact Hs| |]; reflexivity. }
  unfold deck_ok in Hd. cbn in Hd.
  apply Forall_cons in Hd as [[Hi _] _].
  vm_compute in Hi. exact (Hi eq_refl).
Qed.

(** ** Goals *)

Lemma lookup2_insert {V : Type} (m : gmap string (gmap string V))
    (a d p k : string) (inner : gmap string V) (x : V) :
  lookup2 (<[a := <[d := x]> inner]> m) p k
  = if decide (a = p)
    then (if decide (d = k) then Some x else inner !! k)
    else lookup2 m p k.
Proof.
  unfold lookup2. rewrite lookup_insert. case_decide; [|reflexivity].
  cbn. rewrite lookup_insert. by case_decide.
Qed.

Lemma lookup2_Some {V : Type} (m : gmap string (gmap string V))
    (p k : string) (inner : gmap string V) :
  m !! p = Some inner → lookup2 m p k = inner !! k.
Proof. unfold lookup2. by intros ->. Qed.

Lemma set_goals_id (s : Store) (caller goalId : string)
    (userGoals : gmap string Goal.t) (g : Goal.t) :
  goals s !! caller = Some userGoals → userGoals !! goalId = Some g →
  set_goals (<[caller := <[goalId := g]> userGoals]> (goals s)) s = s.
Proof.
  intros Hu Hg. rewrite (insert_id userGoals) by exact Hg.
  rewrite insert_id by exact Hu. by destruct s.
Qed.

Lemma completed_id (g : Goal.t) : Goal.isCompleted g = true → completed g = g.
Proof. destruct g. cbn. by intros ->. Qed.

(** A completed goal stays completed through any message except a
    [createGoal] of the same tenant that takes the goal's id. *)
Lemma step_completed (p k : string) (g : Goal.t) (e : Event) (s : Store) :
  lookup2 (goals s) p k = Some g → Goal.isCompleted g = true →
  ¬ recreates p k e →
  ∃ g', lookup2 (goals (step e s).2) p k = Some g'
        ∧ Goal.isCompleted g' = true.
Proof.
  intros Hg Hc Hne. destruct e as [a now op]. unfold recreates in Hne.
  cbn in Hne. unfold step. cbn [sender clock call].
  destruct op; unfold exec, commit, answer; unfold_ops;
    repeat case_match; simplify_eq; cbn [snd goals set_goals];
    try (exists g; by split).
  - (* createGoal, the tenant has goals *)
    rewrite lookup2_insert. repeat case_decide; subst; eauto.
    + exfalso. apply Hne. eauto 7.
    + erewrite <- lookup2_Some by eassumption. eauto.
  - (* createGoal, the first goal of the tenant *)
    rewrite lookup2_insert. repeat case_decide; subst; eauto.
    + exfalso. apply Hne. eauto 7.
    + unfold lookup2 in Hg. by simplify_option_eq.
  - (* completeGoal *)
    rewrite lookup2_insert. repeat case_decide; subst; eauto.
    erewrite <- lookup2_Some by eassumption. eauto.
Qed.

Lemma run_completed (p k : string) (tr : list Event) :
  Forall (λ e, ¬ recreates p k e) tr →
  ∀ (g : Goal.t) (s : Store),
    lookup2 (goals s) p k = Some g → Goal.isCompleted g = true →
    ∃ g', lookup2 (goals (run tr s)) p k = Some g'
          ∧ Goal.isCompleted g' = true.
Proof.
  induction 1 as [|e tr He _ IH]; intros g s Hg Hc; [by exists g|].
  destruct (step_completed p k g e s Hg Hc He) as (g' & Hg' & Hc').
  cbn [run]. by eapply IH.
Qed.

(** C8 (completeGoal), as the code has it.  On a goal of the caller the
    call succeeds and stores the goal with [isCompleted = true] and its id,
    title, description, target date and creation time as they were; on a
    goal already completed it leaves the store as it was; it traps when the
    goal or the caller's goal collection is absent.  A completed goal stays
    completed through every sequence of messages in which the same tenant
    does not call [createGoal] at a clock whose text is the goal's id. *)
Theorem completeGoal_monotonic (caller goalId : string) (s : Store) :
  (∀ userGoals g,
     goals s !! caller = Some userGoals → userGoals !! goalId = Some g →
     completeGoal caller goalId s
     = Ok (tt, set_goals
                 (<[caller := <[goalId := completed g]> userGoals]> (goals s))
                 s)
     ∧ (Goal.isCompleted g = true →
        completeGoal caller goalId s = Ok (tt, s)))
  ∧ (goals s !! caller = None →
     completeGoal caller goalId s = Trap "No goals found for user")
  ∧ (∀ userGoals,
       goals s !! caller = Some userGoals → userGoals !! goalId = None →
       completeGoal caller goalId s = Trap "Goal not found")
  ∧ (∀ g tr,
       lookup2 (goals s) caller goalId = Some g →
       Goal.isCompleted g = true →
       Forall (λ e, ¬ recreates caller goalId e) tr →
       ∃ g', lookup2 (goals (run tr s)) caller goalId = Some g'
             ∧ Goal.isCompleted g' = true).
Proof.
  unfold completeGoal. split; [|split; [|split]].
  - intros userGoals g Hu Hg. rewrite Hu, Hg. split; [reflexivity|].
    intros Hc. fold (completed g). rewrite completed_id by exact Hc.
    by rewrite set_goals_id.
  - by intros ->.
  - by intros userGoals -> ->.
  - intros g tr Hg Hc Htr. by eapply run_completed.
Qed.

(** Completing it again changes nothing, and it stays completed while
    alice makes another goal at a later clock and bob one at clock 5. *)
Lemma completeGoal_monotonic_witness :
  completeGoal "alice" "5" goal_store = Ok (tt, goal_store)
  ∧ ∃ g', lookup2
            (goals (run [ mkEvent "alice" 6 (CreateGoal "write" "essay" 99);
                          mkEvent "bob" 5 (CreateGoal "read" "chapter 1" 99);
                          mkEvent "alice" 7 (CompleteGoal "6") ] goal_store))
            "alice" "5" = Some g'
          ∧ Goal.isCompleted g' = true.
Proof.
  split.
  - refine (proj2 (proj1 (completeGoal_monotonic "alice" "5" goal_store)
                     _ _ eq_refl eq_refl) eq_refl).
  - refine (proj2 (proj2 (proj2
      (completeGoal_monotonic "alice" "5" goal_store))) _ _ eq_refl eq_refl _).
    repeat constructor; intros (Hs & Hk & _); discriminate.
Defined.

(** C8 fails as stated: a [createGoal] at the clock value of the goal's own
    creation stores a fresh, uncompleted goal under the same id. *)
Lemma completed_goal_reverts :
  Goal.isCompleted <$> lookup2 (goals goal_store) "alice" "5" = Some true
  ∧ Goal.isCompleted
      <$> lookup2
            (goals (step (mkEvent "alice" 5 (CreateGoal "write" "essay" 99))
                         goal_store).2) "alice" "5"
    = Some false.
Proof. split; reflexivity. Qed.

(** ** Identifiers *)

Lemma toText_inj : Inj (=) (=) toText.
Proof. unfold toText. apply _. Qed.

(** A creation answers the text of the clock. *)
Lemma create_id (a : string) (now : Z) (op : Op) (s : Store) (i : string) :
  is_create op = true → (exec a now op s).1 = Ok (VText i) → i = toText now.
Proof.
  destruct op; try discriminate; intros _;
    unfold exec, commit; unfold_ops; repeat case_match; simplify_eq; cbn;
    congruence.
Qed.

Lemma created_sublist (p : string) (tr : list Event) (s : Store) :
  created p tr s
  `sublist_of` (toText ∘ clock <$> filter (λ e, creation p e = true) tr).
Proof.
  revert s. induction tr as [|e tr IH]; intros s; [reflexivity|].
  cbn [created].
  destruct (creation p e) eqn:Hc.
  - rewrite filter_cons_True by exact Hc. cbn [fmap list_fmap].
    destruct ((step e s).1) as [[]|] eqn:Hr;
      try (apply sublist_cons, IH).
    assert (t = toText (clock e)) as ->.
    { apply andb_prop in Hc as [_ Hc]. by eapply create_id. }
    apply sublist_skip, IH.
  - rewrite filter_cons_False by (by rewrite Hc).
    destruct ((step e s).1) as [[]|]; apply IH.
Qed.

Lemma lookup2_insert_ne {V : Type} (m : gmap string (gmap string V))
    (a d p k : string) (inner : gmap string V) (x : V) :
  m !! a = Some inner ∨ (m !! a = None ∧ inner = ∅) → d ≠ k →
  lookup2 (<[a := <[d := x]> inner]> m) p k = lookup2 m p k.
Proof.
  intros Hin Hdk. rewrite lookup2_insert.
  case_decide; [subst|reflexivity]. rewrite decide_False by exact Hdk.
  unfold lookup2. by destruct Hin as [->|[-> ->]].
Qed.

(** C10 (identifiers), as the code has it.  A creation answers the decimal
    text of the clock value as the new identifier.  Hence the creations of
    one tenant made at pairwise distinct clock values, anywhere in a
    sequence of messages, are answered pairwise distinct identifiers; and a
    creation leaves in place whatever is stored under any other identifier
    ([addCard] keeps the deck's cards and appends the new one). *)
Theorem created_ids_distinct (p : string) (tr : list Event) (s : Store) :
  NoDup (clock <$> filter (λ e, creation p e = true) tr) →
  NoDup (created p tr s)
  ∧ (∀ now op i, is_create op = true →
       (exec p now op s).1 = Ok (VText i) → i = toText now)
  ∧ (∀ now op k, is_create op = true → k ≠ toText now →
       (∀ d f b, op ≠ AddCard d f b) →
       entities p k (exec p now op s).2 = entities p k s)
  ∧ (∀ now d f b i s', addCard p now d f b s = Ok (i, s') →
       ∃ userDecks deck card,
         flashcardDecks s !! p = Some userDecks
         ∧ userDecks !! d = Some deck
         ∧ Flashcard.id card = toText now
         ∧ s' = set_flashcardDecks
                  (<[p := <[d := with_cards deck
                                    (FlashcardDeck.cards deck ++ [card])]>
                            userDecks]> (flashcardDecks s)) s).
Proof.
  intros Hnd. split; [|split; [|split]].
  - eapply sublist_NoDup; [|apply created_sublist].
    rewrite list_fmap_compose. by apply (NoDup_fmap_2 toText).
  - intros now op i. apply create_id.
  - intros now op k Hop Hk Hcard.
    destruct op; try discriminate; try (by edestruct Hcard);
      unfold exec, commit; unfold_ops; unfold entities;
      cbn [snd chatSessions notes flashcardDecks quizResults goals
           set_chatSessions set_notes set_flashcardDecks set_quizResults
           set_goals ChatSession.id Note.id FlashcardDeck.id QuizResult.id
           Goal.id];
      rewrite lookup2_insert_ne; try done;
      (case_match; [by left|by right]).
  - intros now d f b i s'. unfold addCard.
    destruct (flashcardDecks s !! p) as [userDecks|]; [|discriminate].
    destruct (userDecks !! d) as [deck|] eqn:Hd; [|discriminate].
    intros [= <- <-]. eexists _, _, _.
    split; [reflexivity|]. split; [exact Hd|].
    split; [|reflexivity]. reflexivity.
Qed.

(** Three creations of alice, at clocks 5, 6 and 7, among messages of bob
    at the same clocks. *)
Lemma created_ids_distinct_witness :
  NoDup (created "alice"
           [ mkEvent "alice" 5 (CreateNote "a" "b" "c");
             mkEvent "bob" 5 (CreateNote "a" "b" "c");
             mkEvent "alice" 6 (CreateNote "d" "e" "f");
             mkEvent "bob" 6 (CreateGoal "g" "h" 9);
             mkEvent "alice" 6 GetNotes;
             mkEvent "alice" 7 (CreateGoal "g" "h" 9) ] init).
Proof.
  refine (proj1 (created_ids_distinct "alice" _ init _)).
  apply (bool_decide_unpack _). reflexivity.
Defined.

(** C10 fails as stated: two notes made at the same clock value get the same
    identifier, and the store keeps the second only. *)
Lemma same_clock_same_id :
  created "alice" [ mkEvent "alice" 5 (CreateNote "first" "one" "t");
                    mkEvent "alice" 5 (CreateNote "second" "two" "t") ] init
  = ["5"; "5"]
  ∧ getNotes "alice"
      (run [ mkEvent "alice" 5 (CreateNote "first" "one" "t");
             mkEvent "alice" 5 (CreateNote "second" "two" "t") ] init)
    = Ok [ {| Note.id := "5"; Note.title := "second"; Note.content := "two";
              Note.topic := "t"; Note.createdAt := 5; Note.updatedAt := 5 |} ].
Proof. split; reflexivity. Qed.

(** ** The order of the chat sessions *)

(** [getChatSessions] answers one view per session of the caller, with the
    session's id, title, creation time and messages, in the order of the
    map's values. *)
Lemma getChatSessions_views (caller : string) (s : Store)
    (userSessions : gmap string ChatSession.t) :
  chatSessions s !! caller = Some userSessions →
  ∃ l, getChatSessions caller s = Ok (ChatSessionDTO.fromChatSession <$> l)
       ∧ l ≡ₚ (map_to_list userSessions).*2.
Proof.
  intros Hu. unfold getChatSessions. rewrite Hu.
  exists (values userSessions). split; [reflexivity|].
  unfold values. by rewrite merge_sort_Permutation.
Qed.

(** C6 (order of [getChatSessions]), on the code: for two sessions made at
    clocks 1700000000000000000 and 1700000000000000001 the answer lists the
    older session first, which is ascending [createdAt]; sorting the answer
    with [compareByCreatedAtDesc] would turn it round. *)
Lemma getChatSessions_ascending :
  ∃ l, getChatSessions "alice" two_sessions = Ok l
       ∧ ChatSessionDTO.createdAt <$> l
         = [1700000000000000000; 1700000000000000001]
       ∧ ChatSessionDTO.createdAt
           <$> sort ChatSessionDTO.compareByCreatedAtDesc l
         = [1700000000000000001; 1700000000000000000].
Proof. eexists. split; [reflexivity|]. split; reflexivity. Qed.

(* ===================================================================== *)
(** * Further properties of the actor *)
(* ===================================================================== *)

(** ** Profiles *)

(** A message keeps the profile of [p], if there is one, up to the fields
    [updateProfile] replaces. *)
Lemma exec_profile (p a : string) (now : Z) (op : Op) (s : Store)
    (prof : Profile.t) :
  profiles s !! p = Some prof →
  ∃ prof', profiles (exec a now op s).2 !! p = Some prof'
           ∧ Profile.createdAt prof' = Profile.createdAt prof.
Proof.
  intros Hp.
  destruct op; unfold exec, commit, answer; unfold_ops;
    repeat case_match; simplify_eq; cbn [snd profiles set_profiles];
    try (exists prof; by split).
  all: destruct (decide (a = p)) as [->|Hne];
    [rewrite lookup_insert_eq; eexists; split; [reflexivity|];
     cbn; congruence
    |rewrite lookup_insert_ne by exact Hne; by exists prof].
Qed.

(** X1 (profile round trip).  [createProfile] succeeds exactly for a caller
    without a profile and [updateProfile] exactly for a caller with one;
    after either, [getProfile] answers the fields handed in, with
    [createdAt] the clock of the creation. *)
Theorem profile_round_trip (caller : string) (now : Z) (displayName : string)
    (mode : PersonalityMode) (language : string) (s : Store) :
  (profiles s !! caller = None →
   updateProfile caller displayName mode language s
   = Trap "Profile does not exist, use create function instead"
   ∧ getProfile caller s = Trap "Profile does not exist"
   ∧ ∃ s', createProfile caller now displayName mode language s
           = Ok (tt, s')
           ∧ getProfile caller s'
             = Ok {| Profile.displayName := displayName;
                     Profile.personalityMode := mode;
                     Profile.preferredLanguage := language;
                     Profile.createdAt := now |})
  ∧ (∀ existing, profiles s !! caller = Some existing →
       createProfile caller now displayName mode language s
       = Trap "Profile already exists, use update function instead"
       ∧ ∃ s', updateProfile caller displayName mode language s
               = Ok (tt, s')
               ∧ getProfile caller s'
                 = Ok {| Profile.displayName := displayName;
                         Profile.personalityMode := mode;
                         Profile.preferredLanguage := language;
                         Profile.createdAt :=
                           Profile.createdAt existing |}).
Proof.
  unfold createProfile, updateProfile, getProfile. split.
  - intros ->. repeat split. eexists. split; [reflexivity|].
    cbn. by rewrite lookup_insert_eq.
  - intros existing ->. split; [reflexivity|]. eexists.
    split; [reflexivity|]. cbn. by rewrite lookup_insert_eq.
Qed.

Lemma profile_round_trip_witness :
  ∃ s', updateProfile "alice" "Al" pro_coder "Hindi" busy_store = Ok (tt, s')
        ∧ getProfile "alice" s'
          = Ok {| Profile.displayName := "Al";
                  Profile.personalityMode := pro_coder;
                  Profile.preferredLanguage := "Hindi";
                  Profile.createdAt := 10 |}.
Proof.
  exact (proj2 (proj2 (profile_round_trip "alice" 50 "Al" pro_coder "Hindi"
                         busy_store) _ eq_refl)).
Defined.

(** X2 (profiles last).  Once a tenant has a profile, it has one after any
    further sequence of messages, by whomever, and with the same
    [createdAt]: no function removes a profile or rewrites its creation
    time. *)
Theorem profile_createdAt_immutable (p : string) (tr : list Event)
    (s : Store) (prof : Profile.t) :
  profiles s !! p = Some prof →
  ∃ prof', getProfile p (run tr s) = Ok prof'
           ∧ Profile.createdAt prof' = Profile.createdAt prof.
Proof.
  revert s prof. induction tr as [|e tr IH]; intros s prof Hp.
  - exists prof. unfold getProfile. cbn. by rewrite Hp.
  - destruct (exec_profile p (sender e) (clock e) (call e) s prof Hp)
      as (prof1 & Hp1 & Hc1).
    destruct (IH _ _ Hp1) as (prof' & Hg & Hc).
    exists prof'. split; [exact Hg|congruence].
Qed.

Lemma profile_createdAt_immutable_witness :
  ∃ prof',
    getProfile "alice"
      (run [ mkEvent "alice" 30 (UpdateProfile "Al" pro_coder "Hindi");
             mkEvent "bob" 31 (CreateProfile "Bob" friendly "French");
             mkEvent "alice" 32 (CreateProfile "A" friendly "English") ]
           busy_store) = Ok prof'
    ∧ Profile.createdAt prof' = 10.
Proof.
  exact (profile_createdAt_immutable "alice" _ busy_store _ eq_refl).
Defined.

(** ** Chat sessions *)

Lemma lookup2_inv {V : Type} (m : gmap string (gmap string V))
    (p k : string) (v : V) :
  lookup2 m p k = Some v →
  ∃ inner, m !! p = Some inner ∧ inner !! k = Some v.
Proof.
  unfold lookup2. destruct (m !! p) as [inner|]; [|discriminate].
  cbn. by exists inner.
Qed.

Lemma lookup2_delete {V : Type} (m : gmap string (gmap string V))
    (a d p k : string) (inner : gmap string V) :
  m !! a = Some inner →
  lookup2 (<[a := delete d inner]> m) p k
  = if decide (a = p ∧ d = k) then None else lookup2 m p k.
Proof.
  intros Ha. unfold lookup2. rewrite lookup_insert.
  destruct (decide (a = p)) as [<-|Hap]; cbn.
  - rewrite Ha. cbn. rewrite lookup_delete.
    destruct (decide (d = k)) as [->|Hdk].
    + by rewrite decide_True.
    + by rewrite decide_False by (by intros [_ ?]).
  - by rewrite decide_False by (by intros [? _]).
Qed.

(** One [addMessage] on a session the caller has. *)
Lemma addMessage_step (p k role content : string) (now : Z) (s : Store)
    (session : ChatSession.t) :
  lookup2 (chatSessions s) p k = Some session →
  ∃ session',
    (step (mkEvent p now (AddMessage k role content)) s).1 = Ok VUnit
    ∧ lookup2 (chatSessions
                 (step (mkEvent p now (AddMessage k role content)) s).2) p k
      = Some session'
    ∧ ChatSession.messages session'
      = ChatSession.messages session
        ++ [ {| Message.role := role; Message.content := content;
                Message.timestamp := now |} ].
Proof.
  intros Hs. destruct (lookup2_inv _ _ _ _ Hs) as (us & Hu & Hk).
  unfold step, exec, commit, addMessage. cbn [sender clock call].
  rewrite Hu, Hk. eexists. split; [reflexivity|].
  cbn [snd chatSessions set_chatSessions].
  rewrite lookup2_insert, !decide_True by reflexivity.
  split; reflexivity.
Qed.

(** X3 (messages are appended in order).  Adding messages one after the
    other to a session the caller has succeeds each time, and
    [getChatMessages] then answers the messages the session had, followed
    by the new ones in the order they were added, each with the clock of
    its call as timestamp. *)
Theorem addMessage_appends (p k : string) (msgs : list (Z * string * string))
    (s : Store) (session : ChatSession.t) :
  lookup2 (chatSessions s) p k = Some session →
  observe p (say p k msgs) s = (λ _, Ok VUnit) <$> msgs
  ∧ getChatMessages p k (run (say p k msgs) s)
    = Ok (ChatSession.messages session ++ said msgs).
Proof.
  revert s session. induction msgs as [|[[now role] content] msgs IH];
    intros s session Hs.
  - cbn. split; [reflexivity|]. rewrite app_nil_r.
    destruct (lookup2_inv _ _ _ _ Hs) as (us & Hu & Hk).
    unfold getChatMessages. by rewrite Hu, Hk.
  - destruct (addMessage_step p k role content now s session Hs)
      as (session' & Hr & Hs' & Hm).
    destruct (IH _ _ Hs') as [Ho Hg].
    unfold say in *. cbn [fmap list_fmap observe run fst snd] in *.
    cbn [sender]. rewrite decide_True by reflexivity.
    split.
    + f_equal; [exact Hr|exact Ho].
    + rewrite Hg, Hm. unfold said. cbn [fmap list_fmap fst snd].
      by rewrite <- app_assoc.
Qed.

Lemma addMessage_appends_witness :
  getChatMessages "alice" "11"
    (run (say "alice" "11" [ (40, "assistant", "hi"); (41, "user", "why") ])
         busy_store)
  = Ok [ {| Message.role := "user"; Message.content := "hello";
            Message.timestamp := 12 |};
         {| Message.role := "assistant"; Message.content := "hi";
            Message.timestamp := 40 |};
         {| Message.role := "user"; Message.content := "why";
            Message.timestamp := 41 |} ].
Proof.
  exact (proj2 (addMessage_appends "alice" "11"
                  [ (40, "assistant", "hi"); (41, "user", "why") ]
                  busy_store _ eq_refl)).
Defined.

(** A session survives a message that does not reset it, with its id,
    title and creation time, and with its messages as a prefix of the new
    ones. *)
Lemma step_session (p k : string) (session : ChatSession.t) (e : Event)
    (s : Store) :
  lookup2 (chatSessions s) p k = Some session → ¬ resets p k e →
  ∃ session',
    lookup2 (chatSessions (step e s).2) p k = Some session'
    ∧ ChatSession.id session' = ChatSession.id session
    ∧ ChatSession.title session' = ChatSession.title session
    ∧ ChatSession.createdAt session' = ChatSession.createdAt session
    ∧ ChatSession.messages session
      `prefix_of` ChatSession.messages session'.
Proof.
  intros Hs Hne. destruct e as [a now op]. unfold resets in Hne.
  cbn in Hne. unfold step. cbn [sender clock call].
  destruct op; unfold exec, commit, answer; unfold_ops;
    repeat case_match; simplify_eq;
    cbn [snd chatSessions set_chatSessions];
    try (exists session; by repeat split).
  - (* createChatSession, the tenant has sessions *)
    rewrite lookup2_insert. repeat case_decide; subst.
    + exfalso. apply Hne. eauto 7.
    + erewrite <- lookup2_Some by eassumption. by exists session.
    + by exists session.
  - (* createChatSession, the first session of the tenant *)
    rewrite lookup2_insert. repeat case_decide; subst.
    + exfalso. apply Hne. eauto 7.
    + unfold lookup2 in Hs. by simplify_option_eq.
    + by exists session.
  - (* addMessage *)
    rewrite lookup2_insert. repeat case_decide; subst.
    + erewrite lookup2_Some in Hs by eassumption. simplify_eq.
      eexists. split; [reflexivity|]. cbn. repeat split. by eexists.
    + erewrite <- lookup2_Some by eassumption. by exists session.
    + by exists session.
  - (* deleteChatSession *)
    erewrite lookup2_delete by eassumption. case_decide as Hd.
    + destruct Hd as [-> ->]. exfalso. apply Hne. eauto.
    + by exists session.
Qed.

(** X4 (messages are never lost).  Through any sequence of messages in
    which the tenant neither deletes the session nor creates a session at
    a clock whose text is the session's id, the session stays, with its
    id, title and creation time, and the messages it had stay the first
    messages of the session, in their order. *)
Theorem session_messages_grow (p k : string) (tr : list Event) (s : Store)
    (session : ChatSession.t) :
  lookup2 (chatSessions s) p k = Some session →
  Forall (λ e, ¬ resets p k e) tr →
  ∃ later,
    getChatMessages p k (run tr s) = Ok (ChatSession.messages session ++ later)
    ∧ ∃ session',
        lookup2 (chatSessions (run tr s)) p k = Some session'
        ∧ ChatSession.id session' = ChatSession.id session
        ∧ ChatSession.title session' = ChatSession.title session
        ∧ ChatSession.createdAt session' = ChatSession.createdAt session.
Proof.
  intros Hs Htr. revert s session Hs.
  induction Htr as [|e tr He _ IH]; intros s session Hs.
  - exists []. rewrite app_nil_r. cbn.
    destruct (lookup2_inv _ _ _ _ Hs) as (us & Hu & Hk).
    unfold getChatMessages. rewrite Hu, Hk. split; [reflexivity|].
    by exists session.
  - destruct (step_session p k session e s Hs He)
      as (s1 & Hs1 & Hi & Ht & Hc & [more Hm]).
    destruct (IH _ _ Hs1) as (later & Hg & s2 & Hs2 & Hi2 & Ht2 & Hc2).
    exists (more ++ later). cbn [run]. split.
    + rewrite Hg, Hm. by rewrite <- app_assoc.
    + exists s2. repeat split; congruence.
Qed.

Lemma session_messages_grow_witness :
  ∃ later,
    getChatMessages "alice" "11"
      (run [ mkEvent "alice" 40 (AddMessage "11" "assistant" "hi");
             mkEvent "alice" 41 (DeleteChatSession "13");
             mkEvent "bob" 11 (CreateChatSession "algebra");
             mkEvent "alice" 42 (CreateChatSession "chemistry") ] busy_store)
    = Ok ([ {| Message.role := "user"; Message.content := "hello";
               Message.timestamp := 12 |} ] ++ later).
Proof.
  destruct (session_messages_grow "alice" "11"
              [ mkEvent "alice" 40 (AddMessage "11" "assistant" "hi");
                mkEvent "alice" 41 (DeleteChatSession "13");
                mkEvent "bob" 11 (CreateChatSession "algebra");
                mkEvent "alice" 42 (CreateChatSession "chemistry") ]
              busy_store _ eq_refl) as (later & Hg & _).
  - repeat constructor; intros (Hs & [Hd|[Hk _]]); discriminate.
  - by exists later.
Defined.

(** X5 (deleting a chat session).  [deleteChatSession] always succeeds.
    Afterwards the caller does not have the session, the caller's other
    sessions are as before, and deleting it again changes nothing; for a
    caller that has sessions, [getChatMessages] and [addMessage] on the
    deleted id trap with "Chat session not found". *)
Theorem deleteChatSession_removes (caller sessionId : string) (s : Store) :
  ∃ s',
    deleteChatSession caller sessionId s = Ok (tt, s')
    ∧ lookup2 (chatSessions s') caller sessionId = None
    ∧ (∀ k, k ≠ sessionId →
            lookup2 (chatSessions s') caller k
            = lookup2 (chatSessions s) caller k)
    ∧ deleteChatSession caller sessionId s' = Ok (tt, s')
    ∧ (is_Some (chatSessions s !! caller) →
       getChatMessages caller sessionId s' = Trap "Chat session not found"
       ∧ ∀ now role content,
           addMessage caller now sessionId role content s'
           = Trap "Chat session not found").
Proof.
  unfold deleteChatSession.
  destruct (chatSessions s !! caller) as [us|] eqn:Hu.
  - eexists. split; [reflexivity|].
    cbn [chatSessions set_chatSessions].
    split; [|split; [|split]].
    + erewrite lookup2_delete by exact Hu. by rewrite decide_True.
    + intros k Hk. erewrite lookup2_delete by exact Hu.
      by rewrite decide_False by (intros [_ ?]; congruence).
    + rewrite lookup_insert_eq. do 2 f_equal. unfold set_chatSessions. cbn.
      by rewrite insert_insert_eq, delete_delete_eq.
    + intros _. unfold getChatMessages, addMessage.
      cbn [chatSessions set_chatSessions].
      rewrite lookup_insert_eq, lookup_delete_eq. by split.
  - exists s. rewrite Hu. split; [reflexivity|].
    unfold lookup2. rewrite Hu. repeat split; try done.
Qed.

(** ** Notes *)

(** X6 (note round trip).  [createNote] always succeeds and answers the
    text of the clock; [getNote] on that id then answers the note with the
    title, content and topic handed in and both dates at the clock; the
    caller's notes under other ids are as before. *)
Theorem createNote_getNote (caller : string) (now : Z)
    (title content topic : string) (s : Store) :
  ∃ s',
    createNote caller now title content topic s = Ok (toText now, s')
    ∧ getNote caller (toText now) s'
      = Ok {| Note.id := toText now; Note.title := title;
              Note.content := content; Note.topic := topic;
              Note.createdAt := now; Note.updatedAt := now |}
    ∧ ∀ k, k ≠ toText now →
           lookup2 (notes s') caller k = lookup2 (notes s) caller k.
Proof.
  unfold createNote, getNote. eexists. split; [reflexivity|].
  cbn [notes set_notes Note.id]. split.
  - by rewrite lookup_insert_eq, lookup_insert_eq.
  - intros k Hk. apply lookup2_insert_ne; [|congruence].
    destruct (notes s !! caller); [by left|by right].
Qed.

(** X7 (updating a note).  [updateNote] on a note the caller has succeeds;
    [getNote] then answers the new title, content and topic, the id and
    creation date of the old note, and the clock as update date; the
    caller's other notes are as before. *)
Theorem updateNote_getNote (caller : string) (now : Z)
    (noteId title content topic : string) (s : Store) (old : Note.t) :
  lookup2 (notes s) caller noteId = Some old →
  ∃ s',
    updateNote caller now noteId title content topic s = Ok (tt, s')
    ∧ getNote caller noteId s'
      = Ok {| Note.id := Note.id old; Note.title := title;
              Note.content := content; Note.topic := topic;
              Note.createdAt := Note.createdAt old;
              Note.updatedAt := now |}
    ∧ ∀ k, k ≠ noteId →
           lookup2 (notes s') caller k = lookup2 (notes s) caller k.
Proof.
  intros Hs. destruct (lookup2_inv _ _ _ _ Hs) as (un & Hu & Hk).
  unfold updateNote, getNote. rewrite Hu, Hk.
  eexists. split; [reflexivity|]. cbn [notes set_notes]. split.
  - by rewrite lookup_insert_eq, lookup_insert_eq.
  - intros k Hne. apply lookup2_insert_ne; [by left|congruence].
Qed.

Lemma updateNote_getNote_witness :
  ∃ s',
    updateNote "alice" 50 "14" "t" "c" "p" busy_store = Ok (tt, s')
    ∧ getNote "alice" "14" s'
      = Ok {| Note.id := "14"; Note.title := "t"; Note.content := "c";
              Note.topic := "p"; Note.createdAt := 14;
              Note.updatedAt := 50 |}.
Proof.
  destruct (updateNote_getNote "alice" 50 "14" "t" "c" "p" busy_store _
              eq_refl) as (s' & Hu & Hg & _).
  by exists s'.
Defined.

(** X8 (deleting a note).  [deleteNote] always succeeds.  Afterwards the
    caller does not have the note, the caller's other notes are as before,
    and deleting it again changes nothing; for a caller that has notes,
    [getNote] on the deleted id traps with "Note not found". *)
Theorem deleteNote_removes (caller noteId : string) (s : Store) :
  ∃ s',
    deleteNote caller noteId s = Ok (tt, s')
    ∧ lookup2 (notes s') caller noteId = None
    ∧ (∀ k, k ≠ noteId →
            lookup2 (notes s') caller k = lookup2 (notes s) caller k)
    ∧ deleteNote caller noteId s' = Ok (tt, s')
    ∧ (is_Some (notes s !! caller) →
       getNote caller noteId s' = Trap "Note not found").
Proof.
  unfold deleteNote.
  destruct (notes s !! caller) as [un|] eqn:Hu.
  - eexists. split; [reflexivity|]. cbn [notes set_notes].
    split; [|split; [|split]].
    + erewrite lookup2_delete by exact Hu. by rewrite decide_True.
    + intros k Hk. erewrite lookup2_delete by exact Hu.
      by rewrite decide_False by (intros [_ ?]; congruence).
    + rewrite lookup_insert_eq. do 2 f_equal. unfold set_notes. cbn.
      by rewrite insert_insert_eq, delete_delete_eq.
    + intros _. unfold getNote. cbn [notes set_notes].
      by rewrite lookup_insert_eq, lookup_delete_eq.
  - exists s. rewrite Hu. split; [reflexivity|].
    unfold lookup2. rewrite Hu. repeat split; try done.
Qed.

Lemma notes_dated_mono (t t' : Z) (s : Store) :
  t ≤ t' → notes_dated t s → notes_dated t' s.
Proof.
  intros Ht Hs p k n Hn. destruct (Hs p k n Hn). split; lia.
Qed.

(** A message at a clock no earlier than the dates of the stored notes
    keeps the dates of the notes in order. *)
Lemma exec_notes_dated (t : Z) (a : string) (now : Z) (op : Op)
    (s : Store) :
  t ≤ now → notes_dated t s → notes_dated now (exec a now op s).2.
Proof.
  intros Ht Hs. pose proof (notes_dated_mono t now s Ht Hs) as Hs'.
  destruct op; unfold exec, commit, answer; unfold_ops;
    repeat case_match; simplify_eq; try exact Hs';
    intros p k n; cbn [snd notes set_notes].
  - (* createNote, the tenant has notes *)
    rewrite lookup2_insert. repeat case_decide; subst.
    + intros [= <-]. cbn. lia.
    + erewrite <- lookup2_Some by eassumption. apply Hs'.
    + apply Hs'.
  - (* createNote, the first note of the tenant *)
    rewrite lookup2_insert. repeat case_decide; subst.
    + intros [= <-]. cbn. lia.
    + by rewrite lookup_empty.
    + apply Hs'.
  - (* updateNote *)
    rewrite lookup2_insert. repeat case_decide; subst.
    + intros [= <-]. cbn.
      match goal with
      | Hu : notes s !! ?a = Some ?un, Hk : ?un !! ?k = Some ?old |- _ =>
          destruct (Hs a k old) as [Hc Hd];
          [by erewrite lookup2_Some by exact Hu|lia]
      end.
    + erewrite <- lookup2_Some by eassumption. apply Hs'.
    + apply Hs'.
  - (* deleteNote *)
    erewrite lookup2_delete by eassumption. case_decide; [done|apply Hs'].
Qed.

Lemma run_notes_dated (tr : list Event) :
  ∀ t s, nondecreasing t tr → notes_dated t s →
         ∃ t', notes_dated t' (run tr s).
Proof.
  induction tr as [|e tr IH]; intros t s Htr Hs; [by exists t|].
  destruct Htr as [Ht Htr]. cbn [run].
  apply (IH (clock e)); [exact Htr|]. by eapply exec_notes_dated.
Qed.

(** X9 (dates of a note).  When the clock never goes back over a sequence
    of messages from the empty store, every note [getNote] answers has its
    creation date no later than its update date. *)
Theorem note_dates_ordered (t : Z) (tr : list Event) (p k : string)
    (n : Note.t) :
  nondecreasing t tr →
  getNote p k (run tr init) = Ok n →
  Note.createdAt n ≤ Note.updatedAt n.
Proof.
  intros Htr Hg.
  destruct (run_notes_dated tr t init Htr) as [t' Hs].
  { intros p' k' n'. unfold lookup2. cbn. by rewrite lookup_empty. }
  apply (Hs p k n). unfold getNote in Hg. unfold lookup2.
  destruct (notes (run tr init) !! p) as [un|]; [|discriminate]. cbn.
  destruct (un !! k); [|discriminate]. congruence.
Qed.

Lemma note_dates_ordered_witness :
  Note.createdAt
    {| Note.id := "14"; Note.title := "t"; Note.content := "c";
       Note.topic := "p"; Note.createdAt := 14; Note.updatedAt := 50 |}
  ≤ Note.updatedAt
      {| Note.id := "14"; Note.title := "t"; Note.content := "c";
         Note.topic := "p"; Note.createdAt := 14; Note.updatedAt := 50 |}.
Proof.
  apply (note_dates_ordered 0
           (busy_trace ++ [mkEvent "alice" 50 (UpdateNote "14" "t" "c" "p")])
           "alice" "14").
  - cbn. repeat split; lia.
  - reflexivity.
Defined.

(** ** Identifiers as keys *)

Lemma keyed_insert {V : Type} (key : V → string)
    (m : gmap string (gmap string V)) (a d : string)
    (inner : gmap string V) (v : V) :
  keyed key m → key v = d →
  m !! a = Some inner ∨ inner = ∅ →
  keyed key (<[a := <[d := v]> inner]> m).
Proof.
  intros Hm Hv Hin p k w. rewrite lookup2_insert.
  repeat case_decide; subst.
  - by intros [= <-].
  - destruct Hin as [Ha| ->]; [|by rewrite lookup_empty].
    intros Hw. apply (Hm p k w). by erewrite lookup2_Some by exact Ha.
  - apply Hm.
Qed.

Lemma keyed_delete {V : Type} (key : V → string)
    (m : gmap string (gmap string V)) (a d : string)
    (inner : gmap string V) :
  keyed key m → m !! a = Some inner →
  keyed key (<[a := delete d inner]> m).
Proof.
  intros Hm Ha p k w. erewrite lookup2_delete by exact Ha.
  case_decide; [done|apply Hm].
Qed.

Lemma keyed_lookup {V : Type} (key : V → string)
    (m : gmap string (gmap string V)) (a k : string)
    (inner : gmap string V) (v : V) :
  keyed key m → m !! a = Some inner → inner !! k = Some v → key v = k.
Proof.
  intros Hm Ha Hk. apply (Hm a k v). by erewrite lookup2_Some by exact Ha.
Qed.

Lemma keyed_empty {V : Type} (key : V → string) :
  keyed key (∅ : gmap string (gmap string V)).
Proof. intros p k v. unfold lookup2. by rewrite lookup_empty. Qed.

(** Every function stores what it stores under the id it gives it, or
    under the key it found it at. *)
Lemma exec_keyed (a : string) (now : Z) (op : Op) (s : Store) :
  store_keyed s → store_keyed (exec a now op s).2.
Proof.
  intros Hs. pose proof Hs as (Hc & Hn & Hd & Hq & Hg & Hp).
  destruct op; unfold exec, commit, answer; unfold_ops;
    repeat case_match; simplify_eq; try exact Hs;
    unfold store_keyed; cbn; repeat split; try assumption;
    first [ by eapply keyed_delete
          | apply keyed_insert;
            [assumption
            |cbn; first [reflexivity | by eapply keyed_lookup]
            |first [by left | by right]] ].
Qed.

Lemma run_keyed (tr : list Event) (s : Store) :
  store_keyed s → store_keyed (run tr s).
Proof.
  revert s. induction tr as [|e tr IH]; intros s Hs; [exact Hs|].
  cbn [run]. apply IH. by apply exec_keyed.
Qed.

Lemma init_keyed : store_keyed init.
Proof. repeat split; apply keyed_empty. Qed.

(** The values of a map are the values of its entries. *)
Lemma elem_of_values {V : Type} (m : gmap string V) (v : V) :
  v ∈ values m ↔ ∃ k, m !! k = Some v.
Proof.
  unfold values. rewrite merge_sort_Permutation, list_elem_of_fmap.
  split.
  - intros ([k w] & -> & Hin). exists k. by apply elem_of_map_to_list.
  - intros [k Hk]. exists (k, v). split; [reflexivity|].
    by apply elem_of_map_to_list.
Qed.

(** When every value sits under its own key, the keys read off the values
    are the keys of the map. *)
Lemma values_keys {V : Type} (key : V → string) (m : gmap string V) :
  (∀ k v, m !! k = Some v → key v = k) →
  key <$> values m ≡ₚ (map_to_list m).*1.
Proof.
  intros Hk. unfold values. rewrite merge_sort_Permutation.
  rewrite <- list_fmap_compose.
  apply eq_subrelation; [apply _|]. apply Forall_fmap_ext_1.
  apply Forall_forall. intros [k v] Hin. cbn. apply Hk.
  by apply elem_of_map_to_list.
Qed.

Lemma values_NoDup {V : Type} (key : V → string) (m : gmap string V) :
  (∀ k v, m !! k = Some v → key v = k) → NoDup (key <$> values m).
Proof.
  intros Hk. rewrite (values_keys key m Hk). apply NoDup_fst_map_to_list.
Qed.

(** X10 (the accessors agree).  In every store reached from the empty
    one: [getNote] answers a note with the id asked for; every note in the
    answer of [getNotes] is what [getNote] answers for its id; and for
    every session in the answer of [getChatSessions] and every deck in the
    answer of [getDecks], [getChatMessages] and [getDeckCards] on its id
    answer its messages and its cards. *)
Theorem accessors_agree (tr : list Event) (p : string) :
  (∀ k n, getNote p k (run tr init) = Ok n → Note.id n = k)
  ∧ (∀ ns n, getNotes p (run tr init) = Ok ns → n ∈ ns →
             getNote p (Note.id n) (run tr init) = Ok n)
  ∧ (∀ cs c, getChatSessions p (run tr init) = Ok cs → c ∈ cs →
             getChatMessages p (ChatSessionDTO.id c) (run tr init)
             = Ok (ChatSessionDTO.messages c))
  ∧ (∀ ds d, getDecks p (run tr init) = Ok ds → d ∈ ds →
             getDeckCards p (FlashcardDeckDTO.id d) (run tr init)
             = Ok (FlashcardDeckDTO.cards d)).
Proof.
  destruct (run_keyed tr init init_keyed) as (Hc & Hn & Hd & _).
  unfold getNote, getNotes, getChatSessions, getChatMessages, getDecks,
    getDeckCards.
  split; [|split; [|split]].
  - intros k n.
    destruct (notes (run tr init) !! p) as [un|] eqn:Hu; [|discriminate].
    destruct (un !! k) as [n'|] eqn:Hk; [|discriminate].
    intros [= <-]. by eapply keyed_lookup.
  - intros ns n.
    destruct (notes (run tr init) !! p) as [un|] eqn:Hu.
    + intros [= <-] [k Hk]%elem_of_values.
      rewrite (keyed_lookup _ _ _ _ _ _ Hn Hu Hk). by rewrite Hk.
    + intros [= <-] Hin. by apply elem_of_nil in Hin.
  - intros cs c.
    destruct (chatSessions (run tr init) !! p) as [us|] eqn:Hu.
    + intros [= <-] (session & -> & [k Hk]%elem_of_values)%list_elem_of_fmap.
      cbn. rewrite (keyed_lookup _ _ _ _ _ _ Hc Hu Hk). by rewrite Hk.
    + intros [= <-] Hin. by apply elem_of_nil in Hin.
  - intros ds d.
    destruct (flashcardDecks (run tr init) !! p) as [ud|] eqn:Hu.
    + intros [= <-] (deck & -> & [k Hk]%elem_of_values)%list_elem_of_fmap.
      cbn. rewrite (keyed_lookup _ _ _ _ _ _ Hd Hu Hk). by rewrite Hk.
    + intros [= <-] Hin. by apply elem_of_nil in Hin.
Qed.

Lemma accessors_agree_witness :
  getDeckCards "alice" "16" busy_store
  = Ok [ {| Flashcard.id := "17"; Flashcard.front := "Q1";
            Flashcard.back := "A1"; Flashcard.difficulty := 1;
            Flashcard.nextReview := 17; Flashcard.interval := 0;
            Flashcard.easeFactor := 2.5 |};
         {| Flashcard.id := "18"; Flashcard.front := "Q2";
            Flashcard.back := "A2"; Flashcard.difficulty := 1;
            Flashcard.nextReview := 18; Flashcard.interval := 0;
            Flashcard.easeFactor := 2.5 |} ].
Proof.
  refine (proj2 (proj2 (proj2 (accessors_agree busy_trace "alice")))
            _ {| FlashcardDeckDTO.id := "16"; FlashcardDeckDTO.name := "Bio";
                 FlashcardDeckDTO.subject := "Biology";
                 FlashcardDeckDTO.cards := _ |} eq_refl _).
  apply list_elem_of_singleton. reflexivity.
Defined.

(** X11 (no identifier twice in an answer).  In every store reached from
    the empty one, the answers of [getChatSessions], [getNotes],
    [getDecks], [getQuizResults] and [getGoals] hold no two entries with
    the same id, and the answer of [getProgressStats] no two rows with the
    same subject. *)
Theorem answers_without_duplicates (tr : list Event) (p : string) :
  ∃ cs ns ds qs gs ps,
    getChatSessions p (run tr init) = Ok cs
    ∧ NoDup (ChatSessionDTO.id <$> cs)
    ∧ getNotes p (run tr init) = Ok ns
    ∧ NoDup (Note.id <$> ns)
    ∧ getDecks p (run tr init) = Ok ds
    ∧ NoDup (FlashcardDeckDTO.id <$> ds)
    ∧ getQuizResults p (run tr init) = Ok qs
    ∧ NoDup (QuizResult.id <$> qs)
    ∧ getGoals p (run tr init) = Ok gs
    ∧ NoDup (Goal.id <$> gs)
    ∧ getProgressStats p (run tr init) = Ok ps
    ∧ NoDup (ProgressStat.subject <$> ps).
Proof.
  destruct (run_keyed tr init init_keyed) as (Hc & Hn & Hd & Hq & Hg & Hp).
  unfold getChatSessions, getNotes, getDecks, getQuizResults, getGoals,
    getProgressStats.
  assert (∃ cs, match chatSessions (run tr init) !! p with
                | Some us => Ok (ChatSessionDTO.fromChatSession <$> values us)
                | None => Ok []
                end = Ok cs ∧ NoDup (ChatSessionDTO.id <$> cs))
    as (cs & -> & Hcs).
  { destruct (chatSessions (run tr init) !! p) as [us|] eqn:Hu;
      eexists; (split; [reflexivity|]); [|constructor].
    rewrite <- list_fmap_compose.
    apply (values_NoDup ChatSession.id). intros k v. by eapply keyed_lookup. }
  assert (∃ ns, match notes (run tr init) !! p with
                | Some un => Ok (values un)
                | None => Ok []
                end = Ok ns ∧ NoDup (Note.id <$> ns))
    as (ns & -> & Hns).
  { destruct (notes (run tr init) !! p) as [un|] eqn:Hu;
      eexists; (split; [reflexivity|]); [|constructor].
    apply values_NoDup. intros k v. by eapply keyed_lookup. }
  assert (∃ ds, match flashcardDecks (run tr init) !! p with
                | Some ud =>
                    Ok (FlashcardDeckDTO.fromFlashcardDeck <$> values ud)
                | None => Ok []
                end = Ok ds ∧ NoDup (FlashcardDeckDTO.id <$> ds))
    as (ds & -> & Hds).
  { destruct (flashcardDecks (run tr init) !! p) as [ud|] eqn:Hu;
      eexists; (split; [reflexivity|]); [|constructor].
    rewrite <- list_fmap_compose.
    apply (values_NoDup FlashcardDeck.id). intros k v.
    by eapply keyed_lookup. }
  assert (∃ qs, match quizResults (run tr init) !! p with
                | Some ur =>
                    Ok (sort QuizResult.compareByTimestampDesc (values ur))
                | None => Ok []
                end = Ok qs ∧ NoDup (QuizResult.id <$> qs))
    as (qs & -> & Hqs).
  { destruct (quizResults (run tr init) !! p) as [ur|] eqn:Hu;
      eexists; (split; [reflexivity|]); [|constructor].
    unfold sort. rewrite merge_sort_Permutation.
    apply values_NoDup. intros k v. by eapply keyed_lookup. }
  assert (∃ gs, match goals (run tr init) !! p with
                | Some ug => Ok (values ug)
                | None => Ok []
                end = Ok gs ∧ NoDup (Goal.id <$> gs))
    as (gs & -> & Hgs).
  { destruct (goals (run tr init) !! p) as [ug|] eqn:Hu;
      eexists; (split; [reflexivity|]); [|constructor].
    apply values_NoDup. intros k v. by eapply keyed_lookup. }
  assert (∃ ps, match progressStats (run tr init) !! p with
                | Some us => Ok (values us)
                | None => Ok []
                end = Ok ps ∧ NoDup (ProgressStat.subject <$> ps))
    as (ps & -> & Hps).
  { destruct (progressStats (run tr init) !! p) as [us|] eqn:Hu;
      eexists; (split; [reflexivity|]); [|constructor].
    apply values_NoDup. intros k v. by eapply keyed_lookup. }
  by exists cs, ns, ds, qs, gs, ps.
Qed.

(** ** Quiz results and progress rows *)

#[local] Instance later_first_total :
  Total (sorted_by QuizResult.compareByTimestampDesc).
Proof.
  intros a b. unfold sorted_by, QuizResult.compareByTimestampDesc.
  change ((QuizResult.timestamp b ≤ QuizResult.timestamp a)
          ∨ (QuizResult.timestamp a ≤ QuizResult.timestamp b)).
  lia.
Qed.

#[local] Instance later_first_trans :
  Transitive (sorted_by QuizResult.compareByTimestampDesc).
Proof.
  intros a b c. unfold sorted_by, QuizResult.compareByTimestampDesc.
  change ((QuizResult.timestamp b ≤ QuizResult.timestamp a)
          → (QuizResult.timestamp c ≤ QuizResult.timestamp b)
          → (QuizResult.timestamp c ≤ QuizResult.timestamp a)).
  lia.
Qed.

Lemma length_values {V : Type} (m : gmap string V) :
  length (values m) = size m.
Proof.
  unfold values.
  by rewrite length_fmap, merge_sort_Permutation, length_map_to_list.
Qed.

(** X12 (quiz results, latest first).  [getQuizResults] always succeeds;
    its answer holds exactly the results stored for the caller, each
    followed only by results whose timestamp is not later; a result just
    recorded with [recordQuizResult] is among them, with the clock as its
    timestamp and the text of the clock as its id. *)
Theorem getQuizResults_latest_first (caller : string) (s : Store) :
  (∃ l, getQuizResults caller s = Ok l
        ∧ StronglySorted later_first l
        ∧ ∀ r, r ∈ l ↔ ∃ k, lookup2 (quizResults s) caller k = Some r)
  ∧ ∀ now subject score totalQuestions,
      ∃ s' l',
        recordQuizResult caller now subject score totalQuestions s
        = Ok (toText now, s')
        ∧ getQuizResults caller s' = Ok l'
        ∧ {| QuizResult.id := toText now; QuizResult.subject := subject;
             QuizResult.score := score;
             QuizResult.totalQuestions := totalQuestions;
             QuizResult.timestamp := now |} ∈ l'.
Proof.
  split.
  - unfold getQuizResults, lookup2.
    destruct (quizResults s !! caller) as [ur|]; cbn.
    + eexists. split; [reflexivity|]. split.
      * change (StronglySorted
                  (sorted_by QuizResult.compareByTimestampDesc)
                  (sort QuizResult.compareByTimestampDesc (values ur))).
        apply (StronglySorted_merge_sort _).
      * intros r. unfold sort. rewrite merge_sort_Permutation.
        apply elem_of_values.
    + exists []. split; [reflexivity|]. split; [constructor|].
      intros r. split; [by intros ?%elem_of_nil|by intros [? ?]].
  - intros now subject score totalQuestions.
    unfold recordQuizResult, getQuizResults. do 2 eexists.
    split; [reflexivity|]. cbn [quizResults set_quizResults].
    rewrite lookup_insert_eq. split; [reflexivity|].
    unfold sort. rewrite merge_sort_Permutation. apply elem_of_values.
    eexists. apply lookup_insert_eq.
Qed.

(** X13 (one progress row per subject).  [updateProgressStat] always
    succeeds; afterwards the caller's row for the subject holds the mastery
    handed in and the clock, the rows of other subjects are as before, and
    [getProgressStats] answers one row more than before if the subject had
    no row and as many as before if it had one. *)
Theorem updateProgressStat_upserts (caller : string) (now : Z)
    (subject : string) (masteryPercent : float) (s : Store) :
  ∃ s' l l',
    updateProgressStat caller now subject masteryPercent s = Ok (tt, s')
    ∧ lookup2 (progressStats s') caller subject
      = Some {| ProgressStat.subject := subject;
                ProgressStat.masteryPercent := masteryPercent;
                ProgressStat.lastUpdated := now |}
    ∧ (∀ k, k ≠ subject →
            lookup2 (progressStats s') caller k
            = lookup2 (progressStats s) caller k)
    ∧ getProgressStats caller s = Ok l
    ∧ getProgressStats caller s' = Ok l'
    ∧ length l'
      = match lookup2 (progressStats s) caller subject with
        | Some _ => length l
        | None => S (length l)
        end.
Proof.
  unfold updateProgressStat, getProgressStats, lookup2.
  destruct (progressStats s !! caller) as [us|] eqn:Hu; do 3 eexists;
    (split; [reflexivity|]); cbn [progressStats set_progressStats];
    rewrite !lookup_insert_eq; cbn; rewrite lookup_insert_eq;
    (split; [reflexivity|]); (split; [|split; [reflexivity|]]).
  - intros k Hk. rewrite lookup_insert_ne by congruence. reflexivity.
  - split; [reflexivity|]. rewrite !length_values.
    destruct (us !! subject) eqn:Hk.
    + by erewrite map_size_insert_Some.
    + by rewrite map_size_insert_None.
  - intros k Hk. rewrite lookup_insert_ne by congruence. reflexivity.
  - split; [reflexivity|].
    by rewrite length_values, map_size_insert_None, map_size_empty.
Qed.

(** ** What a message writes *)

(** X14 (one map per message).  A message changes at most the map its
    function belongs to (profiles for the profile functions, notes for the
    note functions, and so on); the other seven maps are as before, and a
    query changes none. *)
Theorem exec_writes_one_map (a : string) (now : Z) (op : Op) (s : Store) :
  same_but (written op) s (exec a now op s).2.
Proof.
  destruct op; unfold exec, commit, answer; unfold_ops;
    repeat case_match; simplify_eq; cbn; unfold same_but; cbn;
    repeat split; intros; done.
Qed.

(** ** Study streaks over time *)

(** A message that is not a study activity of [p] leaves the streak of
    [p]. *)
Lemma step_streak_other (p : string) (e : Event) (s : Store) :
  studies p e = false →
  studyStreaks (step e s).2 !! p = studyStreaks s !! p.
Proof.
  destruct e as [a now op]. unfold studies, step. cbn [sender clock call].
  intros He.
  destruct op; unfold exec, commit, answer; unfold_ops;
    repeat case_match; simplify_eq; try reflexivity;
    cbn [snd studyStreaks set_studyStreaks];
    apply lookup_insert_ne; intros ->;
    by rewrite bool_decide_eq_true_2 in He.
Qed.

(** A study activity of [p] stores the clock and the new streak. *)
Lemma step_streak_study (p : string) (now : Z) (s : Store) :
  studyStreaks (step (mkEvent p now RecordStudyActivity) s).2 !! p
  = Some {| StudyStreak.currentStreak :=
              match studyStreaks s !! p with
              | Some prev =>
                  if decide (StudyStreak.lastStudyDate prev ÷ 86400000000000
                             = now ÷ 86400000000000 - 1)
                  then StudyStreak.currentStreak prev + 1
                  else 1
              | None => 1
              end;
            StudyStreak.lastStudyDate := now |}.
Proof.
  unfold step, exec, commit, recordStudyActivity. cbn [sender clock call].
  change (24 * 60 * 60 * 1000000000) with 86400000000000.
  destruct (studyStreaks s !! p);
    cbn [snd studyStreaks set_studyStreaks]; by rewrite lookup_insert_eq.
Qed.

Lemma studies_inv (p : string) (e : Event) :
  studies p e = true → e = mkEvent p (clock e) RecordStudyActivity.
Proof.
  destruct e as [a now op]. unfold studies. cbn.
  intros [Ha Hop]%andb_prop. apply bool_decide_eq_true_1 in Ha as ->.
  by destruct op.
Qed.

Lemma run_streak (p : string) (tr : list Event) (s : Store) :
  (∀ k, studyStreaks s !! p = Some k → 1 ≤ StudyStreak.currentStreak k) →
  (∀ k, studyStreaks (run tr s) !! p = Some k →
        1 ≤ StudyStreak.currentStreak k)
  ∧ (studyStreaks (run tr s) !! p = None
     ↔ studyStreaks s !! p = None ∧ existsb (studies p) tr = false).
Proof.
  revert s. induction tr as [|e tr IH]; intros s Hs.
  - cbn. split; [exact Hs|]. split; [by intros ->|by intros [-> _]].
  - cbn [run existsb]. destruct (studies p e) eqn:He.
    + rewrite (studies_inv p e He).
      destruct (IH (step (mkEvent p (clock e) RecordStudyActivity) s).2)
        as [H1 H2].
      { intros k. rewrite step_streak_study. intros [= <-]. cbn.
        destruct (studyStreaks s !! p) as [prev|] eqn:Hp; [|lia].
        case_decide; [|lia]. specialize (Hs prev eq_refl). lia. }
      split; [exact H1|]. rewrite H2, step_streak_study. cbn.
      split; [by intros [[=] _]|by intros [_ [=]]].
    + destruct (IH (step e s).2) as [H1 H2].
      { intros k. rewrite step_streak_other by exact He. apply Hs. }
      split; [exact H1|]. rewrite H2, step_streak_other by exact He.
      reflexivity.
Qed.

(** X15 (a streak is at least one).  After any sequence of messages from
    the empty store, [getStudyStreak] answers the zero streak exactly for a
    tenant that never called [recordStudyActivity], and a streak of at
    least 1 for a tenant that did. *)
Theorem streak_at_least_one (tr : list Event) (p : string) :
  ∃ k,
    getStudyStreak p (run tr init) = Ok k
    ∧ (existsb (studies p) tr = false →
       k = {| StudyStreak.currentStreak := 0;
              StudyStreak.lastStudyDate := 0 |})
    ∧ (existsb (studies p) tr = true → 1 ≤ StudyStreak.currentStreak k).
Proof.
  destruct (run_streak p tr init) as [H1 H2]; [by intros k|].
  unfold getStudyStreak.
  destruct (studyStreaks (run tr init) !! p) as [k|] eqn:Hk.
  - exists k. split; [reflexivity|]. split.
    + intros He. assert (Hn : Some k = None) by (apply H2; by split).
      discriminate.
    + intros _. by apply H1.
  - eexists. split; [reflexivity|]. split; [reflexivity|].
    intros He. destruct (proj1 H2 eq_refl) as [_ Hf]. congruence.
Qed.

Lemma streak_at_least_one_witness :
  ∃ k,
    getStudyStreak "alice"
      (run [ mkEvent "bob" 5 RecordStudyActivity;
             mkEvent "alice" 6 RecordStudyActivity;
             mkEvent "alice" 7 GetStudyStreak ] init) = Ok k
    ∧ 1 ≤ StudyStreak.currentStreak k.
Proof.
  destruct (streak_at_least_one
              [ mkEvent "bob" 5 RecordStudyActivity;
                mkEvent "alice" 6 RecordStudyActivity;
                mkEvent "alice" 7 GetStudyStreak ] "alice")
    as (k & Hk & _ & Hone).
  exists k. split; [exact Hk|]. apply Hone. reflexivity.
Defined.

(** A tenant whose last activity was on the day before [d] studies on the
    days [d], [d + 1], ... *)
Lemma run_daily (p : string) (ts : list Z) :
  ∀ (d : Z) (s : Store) (prev : StudyStreak.t),
    studyStreaks s !! p = Some prev →
    StudyStreak.lastStudyDate prev ÷ 86400000000000 = d - 1 →
    (∀ (i : nat) t, ts !! i = Some t → t ÷ 86400000000000 = d + Z.of_nat i) →
    studyStreaks (run (daily p ts) s) !! p
    = Some {| StudyStreak.currentStreak :=
                StudyStreak.currentStreak prev + Z.of_nat (length ts);
              StudyStreak.lastStudyDate :=
                default (StudyStreak.lastStudyDate prev) (last ts) |}.
Proof.
  induction ts as [|t ts IH]; intros d s prev Hp Hd Hts.
  - cbn. rewrite Hp. destruct prev. cbn. do 2 f_equal. lia.
  - unfold daily in *. cbn [fmap list_fmap run].
    pose proof (Hts 0%nat t eq_refl) as Ht. cbn in Ht.
    rewrite (IH (d + 1) _
               {| StudyStreak.currentStreak :=
                    StudyStreak.currentStreak prev + 1;
                  StudyStreak.lastStudyDate := t |}).
    + rewrite last_cons. cbn [StudyStreak.lastStudyDate
                              StudyStreak.currentStreak length].
      do 2 f_equal; [lia|by destruct (last ts)].
    + rewrite step_streak_study, Hp. by rewrite decide_True by lia.
    + cbn. lia.
    + intros i t' Hi. rewrite (Hts (S i) t' Hi). lia.
Qed.

(** X16 (consecutive days).  A tenant without a streak record that calls
    [recordStudyActivity] once on each of n consecutive days (at any time
    of the day, n at least 1) has streak n afterwards, and the clock of
    the last call as [lastStudyDate]. *)
Theorem consecutive_days_streak (p : string) (d : Z) (ts : list Z)
    (s : Store) :
  studyStreaks s !! p = None →
  ts ≠ [] →
  (∀ (i : nat) t, ts !! i = Some t → t ÷ 86400000000000 = d + Z.of_nat i) →
  getStudyStreak p (run (daily p ts) s)
  = Ok {| StudyStreak.currentStreak := Z.of_nat (length ts);
          StudyStreak.lastStudyDate := default 0 (last ts) |}.
Proof.
  intros Hp Hne Hts. destruct ts as [|t ts]; [done|].
  unfold getStudyStreak, daily. cbn [fmap list_fmap run].
  pose proof (Hts 0%nat t eq_refl) as Ht. cbn in Ht.
  fold (daily p ts).
  rewrite (run_daily p ts (d + 1) _
             {| StudyStreak.currentStreak := 1;
                StudyStreak.lastStudyDate := t |}).
  - rewrite last_cons. cbn [StudyStreak.lastStudyDate
                            StudyStreak.currentStreak length].
    do 2 f_equal; [lia|by destruct (last ts)].
  - by rewrite step_streak_study, Hp.
  - cbn. lia.
  - intros i t' Hi. rewrite (Hts (S i) t' Hi). lia.
Qed.

Lemma consecutive_days_streak_witness :
  getStudyStreak "bob"
    (run (daily "bob" [ 19000 * 86400000000000 + 5;
                        19001 * 86400000000000 + 86399999999999;
                        19002 * 86400000000000 ]) busy_store)
  = Ok {| StudyStreak.currentStreak := 3;
          StudyStreak.lastStudyDate := 19002 * 86400000000000 |}.
Proof.
  apply (consecutive_days_streak "bob" 19000
           [ 19000 * 86400000000000 + 5;
             19001 * 86400000000000 + 86399999999999;
             19002 * 86400000000000 ] busy_store).
  - reflexivity.
  - discriminate.
  - intros [|[|[|i]]] t [= <-]; reflexivity.
Defined.

(** ** Decks and their cards *)

(** X17 (deck round trip).  [createDeck] always succeeds, answers the text
    of the clock, and [getDeckCards] on that id then answers no cards.
    [addCard] on a deck the caller has answers the text of the clock, and
    [getDeckCards] then answers the cards the deck had followed by the new
    one, which has difficulty 1, interval 0, ease factor 2.5 and the clock
    as next review; the caller's other decks are as before. *)
Theorem deck_round_trip (caller : string) (now : Z) (s : Store) :
  (∀ name subject,
     ∃ s', createDeck caller now name subject s = Ok (toText now, s')
           ∧ getDeckCards caller (toText now) s' = Ok [])
  ∧ (∀ deckId front back deck,
       lookup2 (flashcardDecks s) caller deckId = Some deck →
       ∃ s', addCard caller now deckId front back s = Ok (toText now, s')
             ∧ getDeckCards caller deckId s'
               = Ok (FlashcardDeck.cards deck
                     ++ [ {| Flashcard.id := toText now;
                             Flashcard.front := front;
                             Flashcard.back := back;
                             Flashcard.difficulty := 1;
                             Flashcard.nextReview := now;
                             Flashcard.interval := 0;
                             Flashcard.easeFactor := 2.5 |} ])
             ∧ ∀ k, k ≠ deckId →
                    lookup2 (flashcardDecks s') caller k
                    = lookup2 (flashcardDecks s) caller k).
Proof.
  split.
  - intros name subject. unfold createDeck, getDeckCards.
    eexists. split; [reflexivity|].
    cbn [flashcardDecks set_flashcardDecks FlashcardDeck.id].
    by rewrite !lookup_insert_eq.
  - intros deckId front back deck Hs.
    destruct (lookup2_inv _ _ _ _ Hs) as (ud & Hu & Hk).
    unfold addCard, getDeckCards. rewrite Hu, Hk.
    eexists. split; [reflexivity|].
    cbn [flashcardDecks set_flashcardDecks]. split.
    + by rewrite !lookup_insert_eq.
    + intros k Hne. apply lookup2_insert_ne; [by left|congruence].
Qed.

Lemma deck_round_trip_witness :
  ∃ s', addCard "alice" 50 "16" "Q3" "A3" busy_store = Ok ("50", s')
        ∧ getDeckCards "alice" "16" s'
          = Ok [ {| Flashcard.id := "17"; Flashcard.front := "Q1";
                    Flashcard.back := "A1"; Flashcard.difficulty := 1;
                    Flashcard.nextReview := 17; Flashcard.interval := 0;
                    Flashcard.easeFactor := 2.5 |};
                 {| Flashcard.id := "18"; Flashcard.front := "Q2";
                    Flashcard.back := "A2"; Flashcard.difficulty := 1;
                    Flashcard.nextReview := 18; Flashcard.interval := 0;
                    Flashcard.easeFactor := 2.5 |};
                 {| Flashcard.id := "50"; Flashcard.front := "Q3";
                    Flashcard.back := "A3"; Flashcard.difficulty := 1;
                    Flashcard.nextReview := 50; Flashcard.interval := 0;
                    Flashcard.easeFactor := 2.5 |} ].
Proof.
  destruct (proj2 (deck_round_trip "alice" 50 busy_store)
              "16" "Q3" "A3" _ eq_refl) as (s' & Ha & Hg & _).
  by exists s'.
Defined.

Lemma face_reviewed (now : Z) (cardId : string) (interval : Z)
    (easeFactor : float) (card : Flashcard.t) :
  face (reviewed now cardId interval easeFactor card) = face card.
Proof. unfold reviewed. by case_decide. Qed.

(** A deck survives a message that does not store a new deck under its
    id, with its name and subject, and with its cards still there, in
    their order, up to what a review changes. *)
Lemma step_deck (p k : string) (deck : FlashcardDeck.t) (e : Event)
    (s : Store) :
  lookup2 (flashcardDecks s) p k = Some deck → ¬ redecks p k e →
  ∃ deck',
    lookup2 (flashcardDecks (step e s).2) p k = Some deck'
    ∧ FlashcardDeck.name deck' = FlashcardDeck.name deck
    ∧ FlashcardDeck.subject deck' = FlashcardDeck.subject deck
    ∧ face <$> FlashcardDeck.cards deck
      `prefix_of` face <$> FlashcardDeck.cards deck'.
Proof.
  intros Hs Hne. destruct e as [a now op]. unfold redecks in Hne.
  cbn in Hne. unfold step. cbn [sender clock call].
  destruct op; unfold exec, commit, answer; unfold_ops;
    repeat case_match; simplify_eq;
    cbn [snd flashcardDecks set_flashcardDecks];
    try (exists deck; by repeat split).
  - (* createDeck, the tenant has decks *)
    rewrite lookup2_insert. repeat case_decide; subst.
    + exfalso. apply Hne. eauto 7.
    + erewrite <- lookup2_Some by eassumption. by exists deck.
    + by exists deck.
  - (* createDeck, the first deck of the tenant *)
    rewrite lookup2_insert. repeat case_decide; subst.
    + exfalso. apply Hne. eauto 7.
    + unfold lookup2 in Hs. by simplify_option_eq.
    + by exists deck.
  - (* addCard *)
    rewrite lookup2_insert. repeat case_decide; subst.
    + erewrite lookup2_Some in Hs by eassumption. simplify_eq.
      eexists. split; [reflexivity|]. cbn. repeat split.
      rewrite fmap_app. by eexists.
    + erewrite <- lookup2_Some by eassumption. by exists deck.
    + by exists deck.
  - (* updateCardReview *)
    rewrite lookup2_insert. repeat case_decide; subst.
    + erewrite lookup2_Some in Hs by eassumption. simplify_eq.
      eexists. split; [reflexivity|]. cbn. repeat split.
      rewrite <- list_fmap_compose.
      erewrite (list_fmap_ext (face ∘ _) face); [reflexivity|].
      intros i card _. apply face_reviewed.
    + erewrite <- lookup2_Some by eassumption. by exists deck.
    + by exists deck.
Qed.

(** X18 (cards are never lost).  Through any sequence of messages in which
    the tenant does not call [createDeck] at a clock whose text is the
    deck's id, the deck stays, with its name and subject, and
    [getDeckCards] answers the cards it had, in their order and with their
    id, front, back and difficulty, followed by the cards added since. *)
Theorem deck_cards_grow (p k : string) (tr : list Event) (s : Store)
    (deck : FlashcardDeck.t) :
  lookup2 (flashcardDecks s) p k = Some deck →
  Forall (λ e, ¬ redecks p k e) tr →
  ∃ cards',
    getDeckCards p k (run tr s) = Ok cards'
    ∧ face <$> FlashcardDeck.cards deck `prefix_of` face <$> cards'
    ∧ ∃ deck',
        lookup2 (flashcardDecks (run tr s)) p k = Some deck'
        ∧ FlashcardDeck.name deck' = FlashcardDeck.name deck
        ∧ FlashcardDeck.subject deck' = FlashcardDeck.subject deck.
Proof.
  intros Hs Htr. revert s deck Hs.
  induction Htr as [|e tr He _ IH]; intros s deck Hs.
  - exists (FlashcardDeck.cards deck). cbn.
    destruct (lookup2_inv _ _ _ _ Hs) as (ud & Hu & Hk).
    unfold getDeckCards. rewrite Hu, Hk. split; [reflexivity|].
    split; [reflexivity|]. by exists deck.
  - destruct (step_deck p k deck e s Hs He) as (d1 & Hd1 & Hn & Hsb & Hpre).
    destruct (IH _ _ Hd1) as (cards' & Hg & Hpre' & d2 & Hd2 & Hn2 & Hsb2).
    exists cards'. cbn [run]. split; [exact Hg|].
    split; [by etrans|]. exists d2. repeat split; congruence.
Qed.

Lemma deck_cards_grow_witness :
  ∃ cards',
    getDeckCards "alice" "16"
      (run [ mkEvent "alice" 50 (UpdateCardReview "16" "17" 3 2.6);
             mkEvent "alice" 51 (AddCard "16" "Q3" "A3");
             mkEvent "alice" 52 (CreateDeck "Chem" "Chemistry");
             mkEvent "bob" 16 (CreateDeck "Bio" "Biology") ] busy_store)
    = Ok cards'
    ∧ [ ("17", "Q1", "A1", 1); ("18", "Q2", "A2", 1) ]
      `prefix_of` face <$> cards'.
Proof.
  destruct (deck_cards_grow "alice" "16"
              [ mkEvent "alice" 50 (UpdateCardReview "16" "17" 3 2.6);
                mkEvent "alice" 51 (AddCard "16" "Q3" "A3");
                mkEvent "alice" 52 (CreateDeck "Chem" "Chemistry");
                mkEvent "bob" 16 (CreateDeck "Bio" "Biology") ]
              busy_store _ eq_refl) as (cards' & Hg & Hpre & _).
  - repeat constructor; intros (Hs & Hk & _); discriminate.
  - exists cards'. split; [exact Hg|exact Hpre].
Defined.

(** ** The scheduler's floors *)

Lemma SFcompare_antisym (x y : spec_float) :
  SFcompare y x = option_map CompOpp (SFcompare x y).
Proof.
  destruct x as [sx|sx| |sx mx ex], y as [sy|sy| |sy my ey]; cbn;
    try reflexivity; try (by destruct sx); try (by destruct sy);
    try (by destruct sx, sy).
  change (PosDef.Pos.compare_cont Eq my mx) with (Pos.compare my mx).
  change (PosDef.Pos.compare_cont Eq mx my) with (Pos.compare mx my).
  rewrite (Z.compare_antisym ex ey), (Pos.compare_antisym mx my).
  destruct sx, sy; try reflexivity;
    destruct (ex ?= ey); reflexivity.
Qed.

Lemma ltb_antisym (a b : float) :
  PrimFloat.ltb a b = true → PrimFloat.ltb b a = false.
Proof.
  rewrite !FloatAxioms.ltb_spec. unfold SFltb.
  rewrite (SFcompare_antisym (Prim2SF a) (Prim2SF b)).
  by destruct (SFcompare (Prim2SF a) (Prim2SF b)) as [[]|].
Qed.

(** [Math.max(a, b)] is never below a number [a] other than zero. *)
Lemma Math_max_not_below (a b : float) :
  PrimFloat.ltb a a = false → PrimFloat.is_zero a = false →
  PrimFloat.ltb (QuizView.Math_max a b) a = false.
Proof.
  intros Ha Hz. unfold QuizView.Math_max. rewrite Hz. cbn [andb].
  destruct (PrimFloat.is_nan a || PrimFloat.is_nan b) eqn:Hn.
  - rewrite FloatAxioms.ltb_spec. reflexivity.
  - destruct (PrimFloat.ltb a b) eqn:Hab; [by apply ltb_antisym|].
    by destruct (PrimFloat.ltb b a).
Qed.

Lemma rateCard_ease_not_below (r : QuizView.DifficultyRating)
    (card : QuizView.LocalCard) :
  r ≠ QuizView.easy →
  PrimFloat.ltb (QuizView.easeFactor card) 1.3 = false →
  PrimFloat.ltb (QuizView.rateCard r card).2 1.3 = false.
Proof.
  intros Hr He. destruct r; cbn; try done;
    by apply Math_max_not_below.
Qed.

(** X19 (floors of the scheduler).  After an again or a hard rating the
    new ease factor is never below 1.3, whatever it was; a good rating
    keeps it; so through any sequence of again, hard and good ratings an
    ease factor that is not below 1.3 never gets below 1.3.  The new
    interval is 1 after again and never below 1 after hard. *)
Theorem scheduler_floors (card : QuizView.LocalCard) :
  PrimFloat.ltb (QuizView.rateCard QuizView.again card).2 1.3 = false
  ∧ PrimFloat.ltb (QuizView.rateCard QuizView.hard card).2 1.3 = false
  ∧ (QuizView.rateCard QuizView.good card).2 = QuizView.easeFactor card
  ∧ (QuizView.rateCard QuizView.again card).1 = 1%float
  ∧ PrimFloat.ltb (QuizView.rateCard QuizView.hard card).1 1 = false
  ∧ ∀ steps,
      Forall (λ r, r.1 ≠ QuizView.easy) steps →
      PrimFloat.ltb (QuizView.easeFactor card) 1.3 = false →
      PrimFloat.ltb (QuizView.easeFactor (rate_all steps card)) 1.3 = false.
Proof.
  repeat split; try (cbn; by apply Math_max_not_below).
  intros steps Hsteps. revert card.
  induction Hsteps as [|[r now] steps Hr _ IH]; intros card He; [exact He|].
  unfold rate_all in *. cbn [foldl fst snd]. apply IH.
  pose proof (rateCard_ease_not_below r card Hr He) as He'.
  unfold QuizView.rateCard_local.
  by destruct (QuizView.rateCard r card).
Qed.

Lemma scheduler_floors_witness :
  PrimFloat.ltb
    (QuizView.easeFactor
       (rate_all [ (QuizView.hard, 1000); (QuizView.again, 2000);
                   (QuizView.good, 3000); (QuizView.hard, 4000) ]%float
                 (QuizView.mkLocalCard "c1" "Q" "A" 1 1.4 0))) 1.3
  = false.
Proof.
  apply (proj2 (proj2 (proj2 (proj2 (proj2
           (scheduler_floors (QuizView.mkLocalCard "c1" "Q" "A" 1 1.4 0))))))).
  - repeat constructor; discriminate.
  - reflexivity.
Defined.

Lemma mul_zero_l (e : float) :
  finite_number e = true →
  ∃ sg, Prim2SF (0 * e) = S754_zero sg.
Proof.
  unfold finite_number. rewrite FloatAxioms.mul_spec.
  destruct (Prim2SF e) as [sg|sg| |sg m ex]; try discriminate; intros _;
    by eexists.
Qed.

Lemma zero_eqb (x : float) (sg : bool) :
  Prim2SF x = S754_zero sg → PrimFloat.eqb x 0 = true.
Proof. intros Hx. rewrite FloatAxioms.eqb_spec, Hx. reflexivity. Qed.

Lemma Math_floor_zero (x : float) (sg : bool) :
  Prim2SF x = S754_zero sg → QuizView.Math_floor x = x.
Proof. intros Hx. unfold QuizView.Math_floor. by rewrite Hx. Qed.

(** X20 (a card at interval zero).  For a card of the backend with
    interval 0, as [addCard] stores it, and a finite ease factor, the
    local card [cardFromBackend] makes of it has interval 0, and the
    scheduler gives it interval zero again on a good and on an easy
    rating, and interval 1 on an again and on a hard rating. *)
Theorem zero_interval_stays (c : Flashcard.t) :
  Flashcard.interval c = 0 →
  finite_number (Flashcard.easeFactor c) = true →
  QuizView.interval (cardFromBackend c) = 0%float
  ∧ PrimFloat.eqb
      (QuizView.rateCard QuizView.good (cardFromBackend c)).1 0 = true
  ∧ PrimFloat.eqb
      (QuizView.rateCard QuizView.easy (cardFromBackend c)).1 0 = true
  ∧ (QuizView.rateCard QuizView.again (cardFromBackend c)).1 = 1%float
  ∧ (QuizView.rateCard QuizView.hard (cardFromBackend c)).1 = 1%float.
Proof.
  intros Hi He. unfold cardFromBackend, QuizView.rateCard.
  cbn [QuizView.interval QuizView.easeFactor fst]. rewrite Hi.
  change (Number_of_BigInt 0) with 0%float.
  destruct (mul_zero_l _ He) as [sg Hz].
  split; [reflexivity|]. split; [|split; [|split; reflexivity]].
  - rewrite (Math_floor_zero _ sg Hz). by eapply zero_eqb.
  - assert (∃ sg', Prim2SF (0 * Flashcard.easeFactor c * 1.3)
                   = S754_zero sg') as [sg' Hz'].
    { rewrite FloatAxioms.mul_spec, Hz. by eexists. }
    rewrite (Math_floor_zero _ sg' Hz'). by eapply zero_eqb.
Qed.

Lemma zero_interval_stays_witness :
  PrimFloat.eqb
    (QuizView.rateCard QuizView.good (cardFromBackend fresh_card)).1 0
  = true.
Proof.
  exact (proj1 (proj2 (zero_interval_stays fresh_card eq_refl eq_refl))).
Defined.

(** ** Goals over time *)

(** A goal survives a message that does not store a new goal under its
    id, with everything but [isCompleted], which can only become true. *)
Lemma step_goal (p k : string) (g : Goal.t) (e : Event) (s : Store) :
  lookup2 (goals s) p k = Some g → ¬ recreates p k e →
  ∃ g', lookup2 (goals (step e s).2) p k = Some g'
        ∧ completed g' = completed g
        ∧ (Goal.isCompleted g = true → Goal.isCompleted g' = true).
Proof.
  intros Hg Hne. destruct e as [a now op]. unfold recreates in Hne.
  cbn in Hne. unfold step. cbn [sender clock call].
  destruct op; unfold exec, commit, answer; unfold_ops;
    repeat case_match; simplify_eq; cbn [snd goals set_goals];
    try (exists g; by repeat split).
  - rewrite lookup2_insert. repeat case_decide; subst.
    + exfalso. apply Hne. eauto 7.
    + erewrite <- lookup2_Some by eassumption. by exists g.
    + by exists g.
  - rewrite lookup2_insert. repeat case_decide; subst.
    + exfalso. apply Hne. eauto 7.
    + unfold lookup2 in Hg. by simplify_option_eq.
    + by exists g.
  - rewrite lookup2_insert. repeat case_decide; subst.
    + erewrite lookup2_Some in Hg by eassumption. simplify_eq.
      eexists. by repeat split.
    + erewrite <- lookup2_Some by eassumption. by exists g.
    + by exists g.
Qed.

(** X21 (goals are never lost).  Through any sequence of messages in which
    the tenant does not call [createGoal] at a clock whose text is the
    goal's id, [getGoals] keeps answering the goal, with its id, title,
    description, target date and creation time: nothing removes or edits a
    goal, apart from completing it. *)
Theorem goals_persist (p k : string) (tr : list Event) (s : Store)
    (g : Goal.t) :
  lookup2 (goals s) p k = Some g →
  Forall (λ e, ¬ recreates p k e) tr →
  ∃ gs g',
    getGoals p (run tr s) = Ok gs
    ∧ g' ∈ gs
    ∧ Goal.id g' = Goal.id g
    ∧ Goal.title g' = Goal.title g
    ∧ Goal.description g' = Goal.description g
    ∧ Goal.targetDate g' = Goal.targetDate g
    ∧ Goal.createdAt g' = Goal.createdAt g.
Proof.
  intros Hg Htr.
  assert (∃ g', lookup2 (goals (run tr s)) p k = Some g'
                ∧ completed g' = completed g) as (g' & Hg' & Hc).
  { revert s g Hg. induction Htr as [|e tr He _ IH]; intros s g Hg.
    - by exists g.
    - destruct (step_goal p k g e s Hg He) as (g1 & Hg1 & Hc1 & _).
      destruct (IH _ _ Hg1) as (g' & Hg' & Hc').
      exists g'. split; [exact Hg'|congruence]. }
  destruct (lookup2_inv _ _ _ _ Hg') as (ug & Hu & Hk).
  unfold getGoals. rewrite Hu. exists (values ug), g'.
  split; [reflexivity|]. split; [apply elem_of_values; by exists k|].
  unfold completed in Hc. by injection Hc.
Qed.

Lemma goals_persist_witness :
  ∃ gs g',
    getGoals "alice"
      (run [ mkEvent "alice" 30 (CompleteGoal "21");
             mkEvent "alice" 31 (CreateGoal "write" "essay" 99);
             mkEvent "bob" 21 (CreateGoal "read" "chapter 1" 99) ]
           busy_store) = Ok gs
    ∧ g' ∈ gs ∧ Goal.id g' = "21" ∧ Goal.title g' = "read".
Proof.
  destruct (goals_persist "alice" "21"
              [ mkEvent "alice" 30 (CompleteGoal "21");
                mkEvent "alice" 31 (CreateGoal "write" "essay" 99);
                mkEvent "bob" 21 (CreateGoal "read" "chapter 1" 99) ]
              busy_store _ eq_refl)
    as (gs & g' & Hg & Hin & Hid & Ht & _).
  - repeat constructor; intros (Hs & Hk & _); discriminate.
  - exists gs, g'. split; [exact Hg|]. split; [exact Hin|].
    split; [exact Hid|exact Ht].
Defined.

(** ** When a message traps *)

(** X22 (when a message traps).  A message traps exactly when it is a
    [createProfile] of a caller with a profile, an [updateProfile] or
    [getProfile] of a caller without one, or names a chat session
    ([addMessage], [getChatMessages]), a note ([getNote]), a deck
    ([addCard], [updateCardReview], [getDeckCards]) or a goal
    ([completeGoal]) that the caller does not have; the store is then as
    before.  Every other message is answered. *)
Theorem traps_exactly (a : string) (now : Z) (op : Op) (s : Store) :
  match (exec a now op s).1 with
  | Trap _ => refused a op s = true ∧ (exec a now op s).2 = s
  | Ok _ => refused a op s = false
  end.
Proof.
  destruct op; unfold exec, commit, answer, refused, absent, lookup2;
    unfold_ops; repeat case_match; simplify_eq; cbn in *;
    simplify_option_eq; done.
Qed.

(** ** The order of the answers *)

#[local] Instance key_le_total {V : Type} : Total (@key_le V).
Proof. intros a b. unfold key_le. apply String.leb_total. Qed.

(** When every value sits under its own key, the keys read off the values
    of a map come in ascending order. *)
Lemma values_ascending {V : Type} (key : V → string) (m : gmap string V) :
  (∀ k v, m !! k = Some v → key v = k) →
  Sorted text_le (key <$> values m).
Proof.
  intros Hk. unfold values. rewrite <- list_fmap_compose.
  rewrite (Forall_fmap_ext_1 (key ∘ snd) fst).
  - apply (Sorted_fmap _ key_le); [done|]. apply (Sorted_merge_sort _).
  - rewrite merge_sort_Permutation. apply Forall_forall.
    intros [k v] Hkv. cbn. apply Hk. by apply elem_of_map_to_list.
Qed.

(** X23 (answers in ascending order of id).  In every store reached from
    the empty one, [getChatSessions], [getNotes], [getDecks] and
    [getGoals] answer their entries in ascending text order of the ids,
    and [getProgressStats] in ascending text order of the subjects: the
    order of the keys of the map, with no sorting by date. *)
Theorem answers_ascending (tr : list Event) (p : string) :
  ∃ cs ns ds gs ps,
    getChatSessions p (run tr init) = Ok cs
    ∧ Sorted text_le (ChatSessionDTO.id <$> cs)
    ∧ getNotes p (run tr init) = Ok ns
    ∧ Sorted text_le (Note.id <$> ns)
    ∧ getDecks p (run tr init) = Ok ds
    ∧ Sorted text_le (FlashcardDeckDTO.id <$> ds)
    ∧ getGoals p (run tr init) = Ok gs
    ∧ Sorted text_le (Goal.id <$> gs)
    ∧ getProgressStats p (run tr init) = Ok ps
    ∧ Sorted text_le (ProgressStat.subject <$> ps).
Proof.
  destruct (run_keyed tr init init_keyed) as (Hc & Hn & Hd & Hq & Hg & Hp).
  unfold getChatSessions, getNotes, getDecks, getGoals, getProgressStats.
  assert (∃ cs, match chatSessions (run tr init) !! p with
                | Some us => Ok (ChatSessionDTO.fromChatSession <$> values us)
                | None => Ok []
                end = Ok cs ∧ Sorted text_le (ChatSessionDTO.id <$> cs))
    as (cs & -> & Hcs).
  { destruct (chatSessions (run tr init) !! p) as [us|] eqn:Hu;
      eexists; (split; [reflexivity|]); [|constructor].
    rewrite <- list_fmap_compose.
    apply (values_ascending ChatSession.id). intros k v.
    by eapply keyed_lookup. }
  assert (∃ ns, match notes (run tr init) !! p with
                | Some un => Ok (values un)
                | None => Ok []
                end = Ok ns ∧ Sorted text_le (Note.id <$> ns))
    as (ns & -> & Hns).
  { destruct (notes (run tr init) !! p) as [un|] eqn:Hu;
      eexists; (split; [reflexivity|]); [|constructor].
    apply values_ascending. intros k v. by eapply keyed_lookup. }
  assert (∃ ds, match flashcardDecks (run tr init) !! p with
                | Some ud =>
                    Ok (FlashcardDeckDTO.fromFlashcardDeck <$> values ud)
                | None => Ok []
                end = Ok ds ∧ Sorted text_le (FlashcardDeckDTO.id <$> ds))
    as (ds & -> & Hds).
  { destruct (flashcardDecks (run tr init) !! p) as [ud|] eqn:Hu;
      eexists; (split; [reflexivity|]); [|constructor].
    rewrite <- list_fmap_compose.
    apply (values_ascending FlashcardDeck.id). intros k v.
    by eapply keyed_lookup. }
  assert (∃ gs, match goals (run tr init) !! p with
                | Some ug => Ok (values ug)
                | None => Ok []
                end = Ok gs ∧ Sorted text_le (Goal.id <$> gs))
    as (gs & -> & Hgs).
  { destruct (goals (run tr init) !! p) as [ug|] eqn:Hu;
      eexists; (split; [reflexivity|]); [|constructor].
    apply values_ascending. intros k v. by eapply keyed_lookup. }
  assert (∃ ps, match progressStats (run tr init) !! p with
                | Some us => Ok (values us)
                | None => Ok []
                end = Ok ps ∧ Sorted text_le (ProgressStat.subject <$> ps))
    as (ps & -> & Hps).
  { destruct (progressStats (run tr init) !! p) as [us|] eqn:Hu;
      eexists; (split; [reflexivity|]); [|constructor].
    apply values_ascending. intros k v. by eapply keyed_lookup. }
  by exists cs, ns, ds, gs, ps.
Qed.
